(** * XNote server: the note collection, its request handlers and the
      trash purge job of [server.js], as a shallow embedding.

    The [Note] collection of MongoDB is a finite map from [_id] to
    document ([gmap ObjectId Note]): [_id] carries a unique index, so a
    collection holds at most one document per id.  A handler is a function
    from the collection to a JSON response and the collection afterwards.
    The two things a handler reads from its environment, the clock
    ([new Date()], [Date.now()]) and the [_id] that [new Note(...)]
    generates, are explicit arguments.

    Scope of the model: the store is reachable (the [catch] branches that
    answer 500 on a driver failure are not modelled), route ids are
    well-formed ObjectIds, and request bodies are well-typed for the schema
    (a [Boolean] path holds a boolean, a [Date] path a date or [null]).

    The [User] collection and its routes are modelled the same way.  The
    upload of [multer] is reduced to the file name it yields; how an
    update treats a key whose value is [undefined] differs between
    Mongoose releases and is an argument of [update_profile]. *)

From stdpp Require Import gmap strings list fin_maps sorting pretty.

Local Open Scope Z_scope.

(** ** Data model *)

(** A 12-byte ObjectId, as a number. *)
Abbreviation ObjectId := N.

(** A [Date], as milliseconds since the epoch ([Date.now()]).  The range
    check of the [Date] constructor is [new_Date], below. *)
Abbreviation Date := Z.

(** [noteSchema] (with [{ timestamps: true }]); [deletedAt] is [null] or a
    date. *)
Record Note := mkNote {
  email : string;
  title : string;
  content : string;
  color : string;
  pinned : bool;
  archived : bool;
  deleted : bool;
  deletedAt : option Date;
  createdAt : Date;
  updatedAt : Date
}.

#[global] Instance Note_eq_dec : EqDecision Note.
Proof. solve_decision. Defined.

(** Field assignments [note.f = v]. *)
Definition set_pinned (v : bool) (n : Note) : Note :=
  mkNote (email n) (title n) (content n) (color n) v (archived n)
         (deleted n) (deletedAt n) (createdAt n) (updatedAt n).

Definition set_archived (v : bool) (n : Note) : Note :=
  mkNote (email n) (title n) (content n) (color n) (pinned n) v
         (deleted n) (deletedAt n) (createdAt n) (updatedAt n).

Definition set_deleted (v : bool) (n : Note) : Note :=
  mkNote (email n) (title n) (content n) (color n) (pinned n) (archived n)
         v (deletedAt n) (createdAt n) (updatedAt n).

Definition set_deletedAt (v : option Date) (n : Note) : Note :=
  mkNote (email n) (title n) (content n) (color n) (pinned n) (archived n)
         (deleted n) v (createdAt n) (updatedAt n).

Definition set_updatedAt (v : Date) (n : Note) : Note :=
  mkNote (email n) (title n) (content n) (color n) (pinned n) (archived n)
         (deleted n) (deletedAt n) (createdAt n) v.

(** [req.body] of the note routes, restricted to the paths of the schema:
    a key is absent ([None]) or present with a value.  [deletedAt] present
    may be [null]. *)
Record Body := mkBody {
  b_email : option string;
  b_title : option string;
  b_content : option string;
  b_color : option string;
  b_pinned : option bool;
  b_archived : option bool;
  b_deleted : option bool;
  b_deletedAt : option (option Date)
}.

Definition empty_body : Body :=
  mkBody None None None None None None None None.

(** The errors Mongoose raises on the modelled paths; their [err.message]
    is the library's text. *)
Inductive MongooseError :=
| ValidationError
| DuplicateKeyError.

(** The [error] member of an error response: a literal of the handler, or
    the [err.message] of a caught error. *)
Inductive ErrorText :=
| Literal (text : string)
| ErrMessage (err : MongooseError).

(** What [res.json] (after [res.status]) sends. *)
Inductive Response :=
| JsonNotes (notes : list (ObjectId * Note))
| JsonNote (status : Z) (message : string) (id : ObjectId) (note : Note)
| JsonMessage (status : Z) (message : string)
| JsonError (status : Z) (error : ErrorText).

(** [res.status(404).json({ error: 'Note not found' })] *)
Definition NotFound : Response := JsonError 404 (Literal "Note not found").

(** ** Mongoose operations used by the handlers *)

(** [Note.findById(id)]: the document or [null]. *)
Definition findById (id : ObjectId) (db : gmap ObjectId Note) : option Note :=
  db !! id.

(** [note.save()] on a document loaded as [orig] and now holding [doc].
    Nothing is written when no path was modified; otherwise the timestamps
    plugin sets [updatedAt] and the document is stored under its id.  The
    result is the document as the handler then holds it. *)
Definition save (now : Date) (id : ObjectId) (orig doc : Note)
    (db : gmap ObjectId Note) : Note * gmap ObjectId Note :=
  if decide (doc = orig) then (doc, db)
  else let doc' := set_updatedAt now doc in (doc', <[id := doc']> db).

(** [Note.find(filter)]: the documents of the collection that match. *)
Definition find (P : Note → bool) (db : gmap ObjectId Note) :
    list (ObjectId * Note) :=
  filter (λ kv, P kv.2 = true) (map_to_list db).

(** [.sort({ pinned: -1, createdAt: -1 })]: pinned first, then newest. *)
Definition by_pinned_createdAt_desc (a b : ObjectId * Note) : Prop :=
  match pinned a.2, pinned b.2 with
  | true, false => True
  | false, true => False
  | _, _ => createdAt b.2 ≤ createdAt a.2
  end.

(** [.sort({ createdAt: -1 })]. *)
Definition by_createdAt_desc (a b : ObjectId * Note) : Prop :=
  createdAt b.2 ≤ createdAt a.2.

(** [.sort({ deletedAt: -1 })]; [null] sorts below every date. *)
Definition by_deletedAt_desc (a b : ObjectId * Note) : Prop :=
  match deletedAt a.2, deletedAt b.2 with
  | Some x, Some y => y ≤ x
  | Some _, None => True
  | None, Some _ => False
  | None, None => True
  end.

#[global] Instance by_pinned_createdAt_desc_dec a b :
  Decision (by_pinned_createdAt_desc a b).
Proof.
  unfold by_pinned_createdAt_desc.
  destruct (pinned a.2), (pinned b.2); apply _.
Defined.

#[global] Instance by_createdAt_desc_dec a b : Decision (by_createdAt_desc a b).
Proof. unfold by_createdAt_desc. apply _. Defined.

#[global] Instance by_deletedAt_desc_dec a b : Decision (by_deletedAt_desc a b).
Proof.
  unfold by_deletedAt_desc.
  destruct (deletedAt a.2), (deletedAt b.2); apply _.
Defined.

(** ** Note routes *)

(** [GET /api/notes] *)
Definition list_notes (db : gmap ObjectId Note) : Response :=
  JsonNotes (merge_sort by_createdAt_desc (find (λ n, negb (deleted n)) db)).

(** [GET /api/notes/:email] *)
Definition list_notes_by_email (X : string) (db : gmap ObjectId Note) : Response :=
  JsonNotes (merge_sort by_pinned_createdAt_desc
    (find (λ n, bool_decide (email n = X) && negb (deleted n)) db)).

(** [GET /api/notes/trash/:email] *)
Definition list_trash (X : string) (db : gmap ObjectId Note) : Response :=
  JsonNotes (merge_sort by_deletedAt_desc
    (find (λ n, bool_decide (email n = X) && deleted n) db)).

(** [new Note({ email, title, content, color, pinned, archived })]: only
    these six keys of the body are read; every other path takes its schema
    default. *)
Definition new_Note (now : Date) (e : string) (b : Body) : Note :=
  mkNote e (default "" (b_title b)) (default "" (b_content b))
         (default "#ffffff" (b_color b))
         (default false (b_pinned b)) (default false (b_archived b))
         false None now now.

(** [POST /api/notes].  [email] is [required] (an empty string fails the
    validator too); [oid] is the generated [_id], and inserting under an id
    already in use is a duplicate-key error.  Both are answered 400. *)
Definition create_note (now : Date) (oid : ObjectId) (b : Body)
    (db : gmap ObjectId Note) : Response * gmap ObjectId Note :=
  match b_email b with
  | None => (JsonError 400 (ErrMessage ValidationError), db)
  | Some e =>
      if decide (e = "") then (JsonError 400 (ErrMessage ValidationError), db)
      else match db !! oid with
           | Some _ => (JsonError 400 (ErrMessage DuplicateKeyError), db)
           | None =>
               let n := new_Note now e b in
               (JsonNote 201 "Note created successfully" oid n, <[oid := n]> db)
           end
  end.

(** [{ $set: req.body }]: every key present in the body overwrites its
    path. *)
Definition apply_set (b : Body) (n : Note) : Note :=
  mkNote (default (email n) (b_email b)) (default (title n) (b_title b))
         (default (content n) (b_content b)) (default (color n) (b_color b))
         (default (pinned n) (b_pinned b)) (default (archived n) (b_archived b))
         (default (deleted n) (b_deleted b))
         (default (deletedAt n) (b_deletedAt b))
         (createdAt n) (updatedAt n).

(** [PUT /api/notes/:id]: [findByIdAndUpdate] with [{ new: true }]; the
    timestamps plugin adds [updatedAt] to the [$set]. *)
Definition update_note (now : Date) (id : ObjectId) (b : Body)
    (db : gmap ObjectId Note) : Response * gmap ObjectId Note :=
  match findById id db with
  | None => (NotFound, db)
  | Some n =>
      let n' := set_updatedAt now (apply_set b n) in
      (JsonNote 200 "Note updated successfully" id n', <[id := n']> db)
  end.

(** [DELETE /api/notes/:id]: [findByIdAndDelete]. *)
Definition delete_note (id : ObjectId) (db : gmap ObjectId Note) :
    Response * gmap ObjectId Note :=
  match findById id db with
  | None => (NotFound, db)
  | Some _ => (JsonMessage 200 "Note deleted successfully (permanently)", delete id db)
  end.

(** [PATCH /api/notes/:id/pin] *)
Definition toggle_pin (now : Date) (id : ObjectId) (db : gmap ObjectId Note) :
    Response * gmap ObjectId Note :=
  match findById id db with
  | None => (NotFound, db)
  | Some note =>
      let '(note', db') := save now id note (set_pinned (negb (pinned note)) note) db in
      (JsonNote 200 "Note pin toggled" id note', db')
  end.

(** [PATCH /api/notes/:id/archive] *)
Definition toggle_archive (now : Date) (id : ObjectId) (db : gmap ObjectId Note) :
    Response * gmap ObjectId Note :=
  match findById id db with
  | None => (NotFound, db)
  | Some note =>
      let '(note', db') := save now id note (set_archived (negb (archived note)) note) db in
      (JsonNote 200 "Note archive toggled" id note', db')
  end.

(** [PUT /api/notes/:id/trash].  The handler reads the clock for
    [deletedAt] and [save] reads it again for [updatedAt], a moment later;
    the two reads are taken as one instant [now]. *)
Definition trash_note (now : Date) (id : ObjectId) (db : gmap ObjectId Note) :
    Response * gmap ObjectId Note :=
  match findById id db with
  | None => (NotFound, db)
  | Some note =>
      let '(note', db') :=
        save now id note (set_deletedAt (Some now) (set_deleted true note)) db in
      (JsonNote 200 "Note moved to trash" id note', db')
  end.

(** [PUT /api/notes/:id/restore] *)
Definition restore_note (now : Date) (id : ObjectId) (db : gmap ObjectId Note) :
    Response * gmap ObjectId Note :=
  match findById id db with
  | None => (NotFound, db)
  | Some note =>
      let '(note', db') :=
        save now id note (set_deletedAt None (set_deleted false note)) db in
      (JsonNote 200 "Note restored from trash" id note', db')
  end.

(** ** Auto-purge cron job *)

(** [Number(process.env.TRASH_RETENTION_DAYS) || 7], for a variable that
    holds a whole number of days: an unset or non-numeric variable is [NaN]
    ([None] here) and, like [0], falls back to [7]. *)
Definition TRASH_RETENTION_DAYS (env : option Z) : Z :=
  match env with
  | Some d => if decide (d = 0) then 7 else d
  | None => 7
  end.

(** [Date.now() - TRASH_RETENTION_DAYS * 24 * 60 * 60 * 1000]: the time
    value the job hands to [new Date]. *)
Definition cutoff (now : Date) (env : option Z) : Date :=
  now - TRASH_RETENTION_DAYS env * 24 * 60 * 60 * 1000.

(** A [Date] holds a time value of at most 8.64e15 ms either side of the
    epoch. *)
Definition MAX_TIME : Z := 8640000000000000.

Definition valid_time (value : Z) : Prop := - MAX_TIME ≤ value ≤ MAX_TIME.

#[global] Instance valid_time_dec value : Decision (valid_time value).
Proof. unfold valid_time. apply _. Defined.

(** [new Date(value)]: the date with that time value, or an Invalid Date
    ([None]) when the value is out of range. *)
Definition new_Date (value : Z) : option Date :=
  if decide (valid_time value) then Some value else None.

(** The filter [{ deleted: true, deletedAt: { $lte: cutoff } }].  A
    comparison operator matches values of the operand's type only, so a
    [null] [deletedAt] does not match. *)
Definition purge_filter (c : Date) (n : Note) : bool :=
  deleted n &&
  match deletedAt n with
  | Some t => bool_decide (t ≤ c)
  | None => false
  end.

(** [Note.deleteMany(filter)]: the number of documents removed and the
    collection without them. *)
Definition deleteMany (P : Note → bool) (db : gmap ObjectId Note) :
    nat * gmap ObjectId Note :=
  (length (find P db), filter (λ kv, P kv.2 = false) db).

(** What a run of the cron callback logs: the [deletedCount] of
    [console.log], or the error of [console.error]. *)
Inductive CronLog :=
| LogRemoved (deletedCount : nat)
| LogError.

(** The callback scheduled at ['0 2 * * *'], with its [try]/[catch]: what
    it logs and the collection afterwards.  An Invalid Date as cutoff
    cannot be cast for the filter, so [deleteMany] throws before anything
    is removed and the [catch] logs the error. *)
Definition cron_tick (now : Date) (env : option Z) (db : gmap ObjectId Note) :
    CronLog * gmap ObjectId Note :=
  match new_Date (cutoff now env) with
  | Some c =>
      let result := deleteMany (purge_filter c) db in
      (LogRemoved result.1, result.2)
  | None => (LogError, db)
  end.

(** A tick seen from the collection: the number of documents it removed
    (none when it failed) and the collection afterwards. *)
Definition purge_job (now : Date) (env : option Z) (db : gmap ObjectId Note) :
    nat * gmap ObjectId Note :=
  let tick := cron_tick now env db in
  (match tick.1 with LogRemoved k => k | LogError => 0%nat end, tick.2).

(** [initialPurgeLog]: the count it logs, no write.  [0] stands for no log
    line: a zero count is not logged ([if (count)]), and a count that
    fails, as it does on an Invalid Date, is swallowed by the empty
    [catch]. *)
Definition initialPurgeLog (now : Date) (env : option Z) (db : gmap ObjectId Note) : nat :=
  match new_Date (cutoff now env) with
  | Some c => length (find (purge_filter c) db)
  | None => 0%nat
  end.

(** Whether a tick at [now] removes note [n]. *)
Definition purge_removes (now : Date) (env : option Z) (n : Note) : bool :=
  match new_Date (cutoff now env) with
  | Some c => purge_filter c n
  | None => false
  end.

(** ** The server as a transition system *)

Inductive Request :=
| GetNotes
| GetNotesByEmail (X : string)
| PostNote (b : Body)
| PutNote (id : ObjectId) (b : Body)
| DeleteNote (id : ObjectId)
| PatchPin (id : ObjectId)
| PatchArchive (id : ObjectId)
| PutTrash (id : ObjectId)
| PutRestore (id : ObjectId)
| GetTrash (X : string).

Definition handle (now : Date) (oid : ObjectId) (r : Request)
    (db : gmap ObjectId Note) : Response * gmap ObjectId Note :=
  match r with
  | GetNotes => (list_notes db, db)
  | GetNotesByEmail X => (list_notes_by_email X db, db)
  | PostNote b => create_note now oid b db
  | PutNote id b => update_note now id b db
  | DeleteNote id => delete_note id db
  | PatchPin id => toggle_pin now id db
  | PatchArchive id => toggle_archive now id db
  | PutTrash id => trash_note now id db
  | PutRestore id => restore_note now id db
  | GetTrash X => (list_trash X db, db)
  end.

(** What happens to the collection: a request arrives, or the cron job
    fires. *)
Inductive Event :=
| Req (now : Date) (oid : ObjectId) (r : Request)
| Tick (now : Date) (env : option Z).

Definition step (db : gmap ObjectId Note) (e : Event) : gmap ObjectId Note :=
  match e with
  | Req now oid r => (handle now oid r db).2
  | Tick now env => (purge_job now env db).2
  end.

Definition run (es : list Event) (db : gmap ObjectId Note) : gmap ObjectId Note :=
  foldl step db es.

(** ** Predicates on notes, bodies and collections *)

(** [deleted == true] if and only if [deletedAt != null]. *)
Definition trash_consistent (n : Note) : Prop :=
  deleted n = true ↔ deletedAt n ≠ None.

Definition store_inv (db : gmap ObjectId Note) : Prop :=
  map_Forall (λ _ n, trash_consistent n) db.

(** Equality of two notes on every field but [updatedAt]. *)
Definition eq_except_updatedAt (a b : Note) : Prop :=
  email a = email b ∧ title a = title b ∧ content a = content b ∧
  color a = color b ∧ pinned a = pinned b ∧ archived a = archived b ∧
  deleted a = deleted b ∧ deletedAt a = deletedAt b ∧
  createdAt a = createdAt b.

(** Equality on the fields the trash routes do not assign. *)
Definition eq_outside_trash (a b : Note) : Prop :=
  email a = email b ∧ title a = title b ∧ content a = content b ∧
  color a = color b ∧ pinned a = pinned b ∧ archived a = archived b ∧
  createdAt a = createdAt b.

(** A body whose [$set] keeps [deleted] and [deletedAt] in step: it names
    neither, or both with matching values. *)
Definition body_consistent (b : Body) : Prop :=
  match b_deleted b, b_deletedAt b with
  | None, None => True
  | Some d, Some t => d = true ↔ t ≠ None
  | _, _ => False
  end.

Definition event_consistent (e : Event) : Prop :=
  match e with
  | Req _ _ (PutNote _ b) => body_consistent b
  | _ => True
  end.

(** ** Sample data *)

Definition note_a : Note :=
  mkNote "u@e.com" "A" "x" "#ffffff" false false false None 100 100.
Definition note_b : Note :=
  mkNote "u@e.com" "B" "y" "#ffffff" true false false None 50 50.
Definition note_c : Note :=
  mkNote "u@e.com" "C" "z" "#ffffff" false false true (Some 10) 70 80.
Definition note_d : Note :=
  mkNote "v@e.com" "D" "w" "#ffffff" false false true None 60 60.

Definition sample_db : gmap ObjectId Note :=
  <[4%N := note_d]> (<[3%N := note_c]> (<[2%N := note_b]> (<[1%N := note_a]> ∅))).

(** ** Users *)

(** [userSchema]: [username], [email] and [password] are [required] and
    [username] and [email] carry a unique index (taken as built).  A
    [required] path can still hold [null] after an update, which runs no
    validators; [email] is assigned by registration only. *)
Record User := mkUser {
  user_photo : option string;
  user_username : option string;
  user_email : string;
  user_password : option string
}.

#[global] Instance User_eq_dec : EqDecision User.
Proof. solve_decision. Defined.

(** [user._doc] without its [password] key. *)
Record PublicUser := mkPublicUser {
  pu_id : ObjectId;
  pu_photo : option string;
  pu_username : option string;
  pu_email : string
}.

Definition without_password (id : ObjectId) (u : User) : PublicUser :=
  mkPublicUser id (user_photo u) (user_username u) (user_email u).

(** What the user routes send. *)
Inductive UserResponse :=
| JsonUsers (users : list (ObjectId * User))
| JsonUser (status : Z) (message : string) (id : ObjectId) (user : User)
| JsonLogin (message : string) (user : PublicUser)
| JsonProfile (username : option string) (email : string) (photo : option string)
| JsonUserError (status : Z) (error : ErrorText).

Definition UserNotFound : UserResponse :=
  JsonUserError 404 (Literal "User not found").

Definition InvalidLogin : UserResponse :=
  JsonUserError 401 (Literal "Invalid email or password").

(** [User.findOne(filter)]: a document that matches, or [null]. *)
Definition findOne (P : User → bool) (db : gmap ObjectId User) :
    option (ObjectId * User) :=
  head (filter (λ kv, P kv.2 = true) (map_to_list db)).

(** Whether an insert or update of document [id] with this value on a
    uniquely indexed path meets the value in another document. *)
Definition taken (P : User → bool) (id : ObjectId) (db : gmap ObjectId User) : bool :=
  match findOne P (delete id db) with
  | Some _ => true
  | None => false
  end.

(** The [required] validator on a [String] path: the value must be
    present and non-empty. *)
Definition required (v : option string) : option string :=
  match v with
  | Some s => if decide (s = "") then None else Some s
  | None => None
  end.

(** [req.file ? `/uploads/${req.file.filename}` : null], where multer
    names the file [Date.now() + '-' + file.originalname]; [file] is the
    original name of the uploaded photo, if one was sent. *)
Definition upload_path (now : Date) (file : option string) : option string :=
  match file with
  | Some originalname => Some ("/uploads/" +:+ pretty now +:+ "-" +:+ originalname)
  | None => None
  end.

(** [GET /api/users] *)
Definition list_users (db : gmap ObjectId User) : UserResponse :=
  JsonUsers (map_to_list db).

(** [POST /api/users/register]; [oid] is the generated [_id].  A failed
    validation and a duplicate key are both answered 400. *)
Definition register (now : Date) (oid : ObjectId)
    (username email password file : option string)
    (db : gmap ObjectId User) : UserResponse * gmap ObjectId User :=
  let photo := upload_path now file in
  match required username, required email, required password with
  | Some u, Some e, Some p =>
      if bool_decide (is_Some (db !! oid))
         || taken (λ v, bool_decide (user_email v = e)) oid db
         || taken (λ v, bool_decide (user_username v = Some u)) oid db
      then (JsonUserError 400 (ErrMessage DuplicateKeyError), db)
      else let newUser := mkUser photo (Some u) e (Some p) in
           (JsonUser 201 "User registered successfully" oid newUser,
            <[oid := newUser]> db)
  | _, _, _ => (JsonUserError 400 (ErrMessage ValidationError), db)
  end.

(** The value a key of [updateData] leaves in its path: a string is
    stored; an [undefined] value is dropped from the update or stored as
    [null], depending on the Mongoose release ([omitUndefined]). *)
Definition set_or_undefined (omitUndefined : bool) (v old : option string) :
    option string :=
  match v with
  | Some s => Some s
  | None => if omitUndefined then old else None
  end.

(** [PUT /api/users/profile/:email]: [updateData] is
    [{ username, password }], plus [photo] when a file was sent. *)
Definition update_profile (omitUndefined : bool) (now : Date) (e : string)
    (username password file : option string)
    (db : gmap ObjectId User) : UserResponse * gmap ObjectId User :=
  match findOne (λ v, bool_decide (user_email v = e)) db with
  | None => (UserNotFound, db)
  | Some (id, u) =>
      let u' := mkUser (from_option Some (user_photo u) (upload_path now file))
                       (set_or_undefined omitUndefined username (user_username u))
                       (user_email u)
                       (set_or_undefined omitUndefined password (user_password u)) in
      if taken (λ v, bool_decide (user_username v = user_username u')) id db
      then (JsonUserError 400 (ErrMessage DuplicateKeyError), db)
      else (JsonUser 200 "Profile updated successfully" id u', <[id := u']> db)
  end.

(** [POST /api/users/login], for a body that names an [email];
    [user.password !== password] compares the stored value with the
    body's, which may be absent. *)
Definition login (e : string) (password : option string)
    (db : gmap ObjectId User) : UserResponse :=
  match findOne (λ v, bool_decide (user_email v = e)) db with
  | None => InvalidLogin
  | Some (id, u) =>
      match user_password u, password with
      | Some stored, Some given =>
          if decide (stored = given)
          then JsonLogin "Login successful" (without_password id u)
          else InvalidLogin
      | _, _ => InvalidLogin
      end
  end.

(** [GET /api/users/profile/:email]; [protocol] and [host] are
    [req.protocol] and [req.get('host')]. *)
Definition get_profile (protocol host e : string) (db : gmap ObjectId User) :
    UserResponse :=
  match findOne (λ v, bool_decide (user_email v = e)) db with
  | None => UserNotFound
  | Some (_, u) =>
      let photoUrl :=
        match user_photo u with
        | Some path =>
            if decide (path = "") then None
            else Some (protocol +:+ "://" +:+ host +:+ path)
        | None => None
        end in
      JsonProfile (user_username u) (user_email u) photoUrl
  end.

(** No two users share an [email] or a [username]: what the two unique
    indexes enforce. *)
Definition users_unique (db : gmap ObjectId User) : Prop :=
  ∀ i j u v, db !! i = Some u → db !! j = Some v →
    user_email u = user_email v ∨ user_username u = user_username v → i = j.

Definition user_ann : User :=
  mkUser None (Some "ann") "ann@e.com" (Some "pw1").
Definition user_bob : User :=
  mkUser (Some "/uploads/7-b.png") (Some "bob") "bob@e.com" (Some "pw2").

Definition sample_users : gmap ObjectId User :=
  <[2%N := user_bob]> (<[1%N := user_ann]> ∅).

(** ** Reading a listing *)

(** The array a listing route sends (empty for any other response). *)
Definition notes_of (r : Response) : list (ObjectId * Note) :=
  match r with
  | JsonNotes l => l
  | _ => []
  end.

(** Equality on the fields only [POST] and [PUT /api/notes/:id] assign. *)
Definition same_content (a b : Note) : Prop :=
  email a = email b ∧ title a = title b ∧ content a = content b ∧
  color a = color b ∧ createdAt a = createdAt b.

(** The body of two partial updates in a row: a key of the later body
    wins, a key only the earlier one names is kept. *)
Definition merge_body (b1 b2 : Body) : Body :=
  mkBody (from_option Some (b_email b1) (b_email b2))
         (from_option Some (b_title b1) (b_title b2))
         (from_option Some (b_content b1) (b_content b2))
         (from_option Some (b_color b1) (b_color b2))
         (from_option Some (b_pinned b1) (b_pinned b2))
         (from_option Some (b_archived b1) (b_archived b2))
         (from_option Some (b_deleted b1) (b_deleted b2))
         (from_option Some (b_deletedAt b1) (b_deletedAt b2)).

(** ** Basic facts about the operations *)

(** The scenarios of the specification, run on the model. *)
Example create_note_defaults :
  create_note 100 1%N
    (mkBody (Some "u@e.com") (Some "A") (Some "x") None None None None None) ∅
  = (JsonNote 201 "Note created successfully" 1%N note_a, {[1%N := note_a]}).
Proof. reflexivity. Qed.

Example create_note_ignores_trash_keys :
  create_note 100 1%N
    (mkBody (Some "u@e.com") (Some "A") (Some "x") None None None
            (Some true) (Some (Some 5))) ∅
  = (JsonNote 201 "Note created successfully" 1%N note_a, {[1%N := note_a]}).
Proof. reflexivity. Qed.

Example list_notes_by_email_sample :
  list_notes_by_email "u@e.com" sample_db = JsonNotes [(2%N, note_b); (1%N, note_a)].
Proof. vm_compute. reflexivity. Qed.

Example list_trash_sample :
  list_trash "u@e.com" sample_db = JsonNotes [(3%N, note_c)].
Proof. vm_compute. reflexivity. Qed.

Example purge_after_ten_days :
  let now := 10 + 10 * 86400000 in
  purge_job now (Some 7) sample_db
  = (1%nat, <[4%N := note_d]> (<[2%N := note_b]> (<[1%N := note_a]> ∅))) ∧
  list_trash "u@e.com" (purge_job now (Some 7) sample_db).2 = JsonNotes [].
Proof. vm_compute. split; reflexivity. Qed.

Example purge_boundary :
  (purge_job (10 + 7 * 86400000) None sample_db).1 = 1%nat ∧
  (purge_job (9 + 7 * 86400000) None sample_db).1 = 0%nat.
Proof. vm_compute. split; reflexivity. Qed.

Example trash_then_restore_sample :
  (restore_note 600 1%N (trash_note 500 1%N sample_db).2).2 !! 1%N
  = Some (set_updatedAt 600 note_a).
Proof. vm_compute. reflexivity. Qed.

Lemma save_eq now id orig doc (db : gmap ObjectId Note) :
  db !! id = Some orig →
  save now id orig doc db =
    (let d := if decide (doc = orig) then doc else set_updatedAt now doc in
     (d, <[id := d]> db)).
Proof.
  intros Hl. unfold save. destruct (decide (doc = orig)) as [->|Hne]; simpl.
  - by rewrite insert_id.
  - done.
Qed.

Lemma deleteMany_lookup P (db : gmap ObjectId Note) id :
  (deleteMany P db).2 !! id =
    match db !! id with
    | Some n => if P n then None else Some n
    | None => None
    end.
Proof.
  unfold deleteMany; simpl. rewrite map_lookup_filter.
  destruct (db !! id) as [n|] eqn:Hl; simpl; [|done].
  destruct (P n) eqn:HP; case_guard; simpl in *; congruence.
Qed.

Lemma new_Date_Some value c : new_Date value = Some c ↔ valid_time value ∧ c = value.
Proof. unfold new_Date. destruct (decide _); intuition congruence. Qed.

Lemma new_Date_None value : new_Date value = None ↔ ¬ valid_time value.
Proof. unfold new_Date. destruct (decide _); intuition congruence. Qed.

Lemma purge_job_lookup now env (db : gmap ObjectId Note) id :
  (purge_job now env db).2 !! id =
    match db !! id with
    | Some n => if purge_removes now env n then None else Some n
    | None => None
    end.
Proof.
  unfold purge_job, cron_tick, purge_removes.
  destruct (new_Date (cutoff now env)) as [c|]; cbn [fst snd].
  - apply deleteMany_lookup.
  - by destruct (db !! id).
Qed.

Lemma cron_tick_invalid now env (db : gmap ObjectId Note) :
  ¬ valid_time (cutoff now env) → cron_tick now env db = (LogError, db).
Proof.
  intros Hv. unfold cron_tick. by rewrite (proj2 (new_Date_None _) Hv).
Qed.

Lemma purge_filter_true c n :
  purge_filter c n = true ↔ deleted n = true ∧ ∃ t, deletedAt n = Some t ∧ t ≤ c.
Proof.
  unfold purge_filter. rewrite andb_true_iff.
  destruct (deletedAt n) as [t|]; split.
  - intros [Hd Ht]. apply bool_decide_eq_true in Ht. eauto.
  - intros [Hd (t' & [= <-] & Hle)]. split; [done | by apply bool_decide_eq_true].
  - intros [_ ?]; done.
  - intros [_ (t' & ? & _)]; done.
Qed.

Lemma purge_removes_true now env n :
  purge_removes now env n = true
  ↔ valid_time (cutoff now env) ∧ deleted n = true
      ∧ ∃ t, deletedAt n = Some t ∧ t ≤ cutoff now env.
Proof.
  unfold purge_removes. destruct (new_Date _) as [c|] eqn:Hc.
  - apply new_Date_Some in Hc as [Hv ->]. rewrite purge_filter_true. tauto.
  - apply new_Date_None in Hc. split; [done | tauto].
Qed.

Lemma purge_removes_kept now env n :
  deleted n = false ∨ deletedAt n = None → purge_removes now env n = false.
Proof.
  intros Hk. destruct (purge_removes now env n) eqn:Hp; [|done].
  apply purge_removes_true in Hp as (_ & Hd & t & Ht & _).
  destruct Hk; congruence.
Qed.

Lemma trash_note_found now id (db : gmap ObjectId Note) n :
  db !! id = Some n →
  ∃ n', trash_note now id db =
          (JsonNote 200 "Note moved to trash" id n', <[id := n']> db)
    ∧ deleted n' = true ∧ deletedAt n' = Some now ∧ eq_outside_trash n n'.
Proof.
  intros Hl. unfold trash_note, findById. rewrite Hl, (save_eq _ _ _ _ _ Hl).
  eexists; split; [reflexivity|].
  destruct (decide _) as [He|_].
  - rewrite <- He. by destruct n.
  - by destruct n.
Qed.

Lemma toggle_pin_found now id (db : gmap ObjectId Note) n :
  db !! id = Some n →
  toggle_pin now id db =
    (let n' := set_updatedAt now (set_pinned (negb (pinned n)) n) in
     (JsonNote 200 "Note pin toggled" id n', <[id := n']> db)).
Proof.
  intros Hl. unfold toggle_pin, findById. rewrite Hl, (save_eq _ _ _ _ _ Hl).
  destruct (decide _) as [He|_]; [|done].
  apply (f_equal pinned) in He. simpl in He. by destruct (pinned n).
Qed.

Lemma toggle_archive_found now id (db : gmap ObjectId Note) n :
  db !! id = Some n →
  toggle_archive now id db =
    (let n' := set_updatedAt now (set_archived (negb (archived n)) n) in
     (JsonNote 200 "Note archive toggled" id n', <[id := n']> db)).
Proof.
  intros Hl. unfold toggle_archive, findById. rewrite Hl, (save_eq _ _ _ _ _ Hl).
  destruct (decide _) as [He|_]; [|done].
  apply (f_equal archived) in He. simpl in He. by destruct (archived n).
Qed.

(** ** The trash route *)





(** ** The toggles *)

(** C8: a pin toggle on an id that does not resolve answers NotFound and
    leaves the collection as it was. *)
Theorem toggle_pin_not_found now id (db : gmap ObjectId Note) :
  db !! id = None → toggle_pin now id db = (NotFound, db).
Proof. intros Hl. unfold toggle_pin, findById. by rewrite Hl. Qed.

Lemma toggle_pin_not_found_witness :
  toggle_pin 500 9%N sample_db = (NotFound, sample_db).
Proof. apply (toggle_pin_not_found 500 9%N sample_db). reflexivity. Defined.



(** ** The purge job *)

(** C2, counterexample: a tick whose cutoff is an Invalid Date removes
    nothing.  With [TRASH_RETENTION_DAYS=-200000000] the tick at time 500
    has the cutoff 17280000000000500, beyond the range of a [Date]; note 3
    of [sample_db] has [deleted == true] and [deletedAt = 10], at or before
    that cutoff, and is still there after the tick. *)
Lemma purge_job_invalid_cutoff_keeps :
  ¬ (∀ now env (db : gmap ObjectId Note) id n,
       db !! id = Some n →
       deleted n = true →
       (∃ t, deletedAt n = Some t ∧ t ≤ cutoff now env) →
       (purge_job now env db).2 !! id = None).
Proof.
  intros H.
  assert (Hc : ∃ t, deletedAt note_c = Some t ∧ t ≤ cutoff 500 (Some (-200000000))).
  { exists 10. split; [reflexivity | vm_compute; discriminate]. }
  specialize (H 500 (Some (-200000000)) sample_db 3%N note_c eq_refl eq_refl Hc).
  vm_compute in H. discriminate H.
Qed.

(** C2, amended: a tick computes [cutoff = now - retention] (in
    milliseconds).  When the cutoff is a valid date, every document with
    [deleted == true] and [deletedAt <= cutoff] is gone afterwards; when it
    is not, the tick fails, logs the error and leaves the collection as it
    was.  On every tick a document whose [deletedAt] is later than the
    cutoff is still there unchanged, and the tick never adds or alters a
    document. *)
Theorem purge_job_spec now env (db : gmap ObjectId Note) id n :
  db !! id = Some n →
  cutoff now env = now - TRASH_RETENTION_DAYS env * 86400000 ∧
  (valid_time (cutoff now env) →
   deleted n = true → (∃ t, deletedAt n = Some t ∧ t ≤ cutoff now env) →
     (purge_job now env db).2 !! id = None) ∧
  (¬ valid_time (cutoff now env) → cron_tick now env db = (LogError, db)) ∧
  (∀ t, deletedAt n = Some t → cutoff now env < t →
     (purge_job now env db).2 !! id = Some n) ∧
  (∀ j m, (purge_job now env db).2 !! j = Some m → db !! j = Some m).
Proof.
  intros Hl. split; [unfold cutoff; lia|]. split; [|split; [|split]].
  - intros Hv Hd Ht. rewrite purge_job_lookup, Hl.
    by rewrite (proj2 (purge_removes_true _ _ _) (conj Hv (conj Hd Ht))).
  - apply cron_tick_invalid.
  - intros t Ht Hc. rewrite purge_job_lookup, Hl.
    destruct (purge_removes _ _ n) eqn:Hp; [|done].
    apply purge_removes_true in Hp as (_ & _ & t' & Ht' & Hle).
    rewrite Ht in Ht'. injection Ht' as <-. lia.
  - intros j m. rewrite purge_job_lookup.
    destruct (db !! j) as [k|]; [|done]. by destruct (purge_removes _ _ k).
Qed.

Lemma purge_job_spec_witness :
  (purge_job 604800010 None sample_db).2 !! 3%N = None ∧
  cron_tick 500 (Some (-200000000)) sample_db = (LogError, sample_db) ∧
  (purge_job 604800009 None sample_db).2 !! 3%N = Some note_c.
Proof.
  split; [|split].
  - apply (proj1 (proj2
      (purge_job_spec 604800010 None sample_db 3%N note_c eq_refl))).
    + vm_compute. split; discriminate.
    + reflexivity.
    + exists 10. split; [reflexivity | vm_compute; discriminate].
  - apply (proj1 (proj2 (proj2
      (purge_job_spec 500 (Some (-200000000)) sample_db 3%N note_c eq_refl)))).
    vm_compute. intros [_ Hle]. by apply Hle.
  - apply (proj1 (proj2 (proj2 (proj2
      (purge_job_spec 604800009 None sample_db 3%N note_c eq_refl)))) 10).
    + reflexivity.
    + vm_compute; reflexivity.
Defined.

(** C10: a document whose [deletedAt] is [null] survives every tick, also
    when its [deleted] flag is set. *)
Theorem purge_job_keeps_null_deletedAt now env (db : gmap ObjectId Note) id n :
  db !! id = Some n →
  deletedAt n = None →
  (purge_job now env db).2 !! id = Some n.
Proof.
  intros Hl Hn. rewrite purge_job_lookup, Hl.
  by rewrite purge_removes_kept by (by right).
Qed.

Lemma purge_job_keeps_null_deletedAt_witness :
  deleted note_d = true ∧
  (purge_job 604800010 None sample_db).2 !! 4%N = Some note_d.
Proof.
  split; [reflexivity|].
  apply (purge_job_keeps_null_deletedAt 604800010 None sample_db 4%N note_d);
    reflexivity.
Defined.

(** ** The listing of a user's active notes *)

Section listing.
Implicit Types a b c : ObjectId * Note.

#[global] Instance by_pinned_createdAt_desc_total :
  Total by_pinned_createdAt_desc.
Proof.
  intros a b. unfold by_pinned_createdAt_desc.
  destruct (pinned a.2), (pinned b.2); try tauto; lia.
Qed.

#[global] Instance by_pinned_createdAt_desc_trans :
  Transitive by_pinned_createdAt_desc.
Proof.
  intros a b c. unfold by_pinned_createdAt_desc.
  destruct (pinned a.2), (pinned b.2), (pinned c.2); try tauto; lia.
Qed.

Lemma elem_of_find P (db : gmap ObjectId Note) id n :
  (id, n) ∈ find P db ↔ db !! id = Some n ∧ P n = true.
Proof.
  unfold find. rewrite list_elem_of_filter, elem_of_map_to_list. simpl. tauto.
Qed.

Lemma NoDup_find P (db : gmap ObjectId Note) : NoDup (find P db).
Proof. apply NoDup_filter, NoDup_map_to_list. Qed.
End listing.

(** C5: the listing for [X] holds exactly the documents with
    [email == X] and [deleted == false], each once, ordered by [pinned]
    descending and then [createdAt] descending; no listed note has
    [deleted == true]. *)
Theorem list_notes_by_email_spec X (db : gmap ObjectId Note) :
  ∃ l, list_notes_by_email X db = JsonNotes l
    ∧ (∀ id n, (id, n) ∈ l ↔ db !! id = Some n ∧ email n = X ∧ deleted n = false)
    ∧ NoDup l
    ∧ StronglySorted by_pinned_createdAt_desc l
    ∧ Forall (λ kv, deleted kv.2 ≠ true) l.
Proof.
  eexists; split; [reflexivity|].
  set (P := λ n, bool_decide (email n = X) && negb (deleted n)).
  assert (Hmem : ∀ id n, (id, n) ∈ merge_sort by_pinned_createdAt_desc (find P db)
            ↔ db !! id = Some n ∧ email n = X ∧ deleted n = false).
  { intros id n. rewrite merge_sort_Permutation, elem_of_find.
    unfold P. rewrite andb_true_iff, bool_decide_eq_true, negb_true_iff. tauto. }
  split; [exact Hmem|]. split; [|split].
  - rewrite merge_sort_Permutation. apply NoDup_find.
  - apply StronglySorted_merge_sort; apply _.
  - apply Forall_forall. intros [id n] Hin. apply Hmem in Hin as (_ & _ & Hd).
    simpl. by rewrite Hd.
Qed.

(** ** Trash followed by restore *)

(** C3, counterexample: on a note that is already in the trash, trash then
    restore does not give back the original: [deleted] and [deletedAt] of
    note 3 of [sample_db] end as [false] and [null]. *)
Lemma trash_restore_not_identity_on_trashed :
  ¬ (∀ t1 t2 id (db : gmap ObjectId Note) n,
       db !! id = Some n →
       ∃ n', (restore_note t2 id (trash_note t1 id db).2).2 !! id = Some n'
         ∧ eq_except_updatedAt n n').
Proof.
  intros H.
  destruct (H 500 600 3%N sample_db note_c eq_refl) as (n' & Hl & Heq).
  vm_compute in Hl. injection Hl as <-.
  destruct Heq as (_ & _ & _ & _ & _ & _ & Hd & _). discriminate Hd.
Qed.

(** C3, amended: for an existing note that is active ([deleted == false],
    [deletedAt == null]), trash then restore leaves the collection with
    that note equal to the original on every field but [updatedAt], and
    every other note untouched. *)
Theorem trash_restore_roundtrip t1 t2 id (db : gmap ObjectId Note) n :
  db !! id = Some n →
  deleted n = false →
  deletedAt n = None →
  ∃ n', (restore_note t2 id (trash_note t1 id db).2).2 = <[id := n']> db
    ∧ eq_except_updatedAt n n'.
Proof.
  intros Hl Hd Ht.
  unfold trash_note, findById. rewrite Hl, (save_eq _ _ _ _ _ Hl). cbn [snd].
  destruct (decide _) as [He|_].
  { apply (f_equal deleted) in He. simpl in He. congruence. }
  unfold restore_note, findById. rewrite lookup_insert_eq.
  erewrite save_eq by apply lookup_insert_eq. cbn [snd].
  rewrite insert_insert_eq. eexists; split; [reflexivity|].
  destruct n; simpl in *; subst.
  destruct (decide _); repeat split.
Qed.

Lemma trash_restore_roundtrip_witness :
  ∃ n', (restore_note 600 1%N (trash_note 500 1%N sample_db).2).2
          = <[1%N := n']> sample_db
    ∧ eq_except_updatedAt note_a n'.
Proof.
  apply (trash_restore_roundtrip 500 600 1%N sample_db note_a); reflexivity.
Defined.

(** ** What a toggle writes *)




(** ** The trash invariant *)

Section invariant.
Implicit Types (db : gmap ObjectId Note) (n : Note).

Lemma trash_consistent_set_updatedAt t n :
  trash_consistent n → trash_consistent (set_updatedAt t n).
Proof. done. Qed.

Lemma store_inv_insert db id n :
  trash_consistent n → store_inv db → store_inv (<[id := n]> db).
Proof. intros Hn Hdb. by apply map_Forall_insert_2. Qed.

(** The two outcomes of [save]: nothing written, or the document stored. *)
Ltac save_cases Hdb :=
  unfold save; destruct (decide _); cbn [snd];
  [exact Hdb | apply store_inv_insert; [|exact Hdb]].

Lemma store_inv_deleteMany P db :
  store_inv db → store_inv (deleteMany P db).2.
Proof.
  intros Hdb id n Hl. rewrite deleteMany_lookup in Hl.
  destruct (db !! id) as [m|] eqn:Hm; [|done].
  destruct (P m); [done|]. injection Hl as <-. by apply (Hdb id).
Qed.

Lemma trash_consistent_apply_set b n :
  body_consistent b → trash_consistent n → trash_consistent (apply_set b n).
Proof.
  unfold body_consistent, trash_consistent, apply_set; simpl.
  destruct (b_deleted b), (b_deletedAt b); simpl; tauto.
Qed.

Lemma store_inv_handle now oid r db :
  event_consistent (Req now oid r) → store_inv db →
  store_inv (handle now oid r db).2.
Proof.
  intros Hr Hdb.
  destruct r as [ | X | b | id b | id | id | id | id | id | X ]; simpl;
    try done.
  - unfold create_note.
    destruct (b_email b) as [e|]; [|done].
    destruct (decide _); [done|]. destruct (db !! oid); [done|].
    simpl. apply store_inv_insert; [|done]. by split.
  - unfold update_note, findById.
    destruct (db !! id) as [n|] eqn:Hl; [|done]. simpl.
    apply store_inv_insert; [|done].
    apply trash_consistent_set_updatedAt, trash_consistent_apply_set; [done|].
    by apply (Hdb id).
  - unfold delete_note, findById.
    destruct (db !! id); [|done]. simpl. by apply map_Forall_delete.
  - unfold toggle_pin, findById.
    destruct (db !! id) as [n|] eqn:Hl; [|done].
    save_cases Hdb. exact (Hdb id n Hl).
  - unfold toggle_archive, findById.
    destruct (db !! id) as [n|] eqn:Hl; [|done].
    save_cases Hdb. exact (Hdb id n Hl).
  - unfold trash_note, findById.
    destruct (db !! id) as [n|] eqn:Hl; [|done].
    save_cases Hdb. by split.
  - unfold restore_note, findById.
    destruct (db !! id) as [n|] eqn:Hl; [|done].
    save_cases Hdb. by split.
Qed.

Lemma store_inv_step e db :
  event_consistent e → store_inv db → store_inv (step db e).
Proof.
  destruct e as [now oid r | now env]; simpl.
  - apply store_inv_handle.
  - intros _ Hdb. unfold purge_job, cron_tick.
    destruct (new_Date _); cbn [fst snd]; [by apply store_inv_deleteMany | done].
Qed.
End invariant.

(** C1, counterexample: a partial update whose body is [{ deleted: true }]
    takes a collection that satisfies the invariant to one where note 1 has
    [deleted == true] and [deletedAt == null]. *)
Lemma partial_update_breaks_store_inv :
  ¬ (∀ es (db : gmap ObjectId Note), store_inv db → store_inv (run es db)).
Proof.
  intros H.
  specialize (H [Req 200 0%N (PutNote 1%N
                   (mkBody None None None None None None (Some true) None))]
                (<[1%N := note_a]> ∅)).
  assert (Hinv : store_inv (<[1%N := note_a]> ∅)).
  { apply store_inv_insert; [by split | apply map_Forall_empty]. }
  specialize (H Hinv 1%N _ eq_refl).
  destruct H as [H _]. by specialize (H eq_refl).
Qed.

(** C1, amended: [deleted == true] iff [deletedAt != null] holds of every
    note after any sequence of requests (create, partial update, permanent
    delete, toggles, trash, restore, listings) and purge ticks, when it
    held before (as it does in the empty collection), provided each
    partial update's body assigns [deleted] and [deletedAt] together and
    consistently, or neither of them. *)
Theorem store_inv_preserved es (db : gmap ObjectId Note) :
  Forall event_consistent es →
  store_inv db →
  store_inv (run es db).
Proof.
  unfold run. revert db.
  induction es as [|e es IH]; intros db Hes Hdb; simpl; [done|].
  inversion Hes as [|? ? He Hes']; subst.
  apply IH; [done|]. by apply store_inv_step.
Qed.

Lemma store_inv_preserved_witness :
  store_inv (run
    [ Req 100 1%N (PostNote (mkBody (Some "u@e.com") (Some "A") (Some "x")
                               None None None (Some true) None));
      Req 200 0%N (PatchPin 1%N);
      Req 300 0%N (PutTrash 1%N);
      Req 400 0%N (PutNote 1%N (mkBody None (Some "B") None None None None None None));
      Tick 500 None;
      Req 600 0%N (PutRestore 1%N);
      Req 700 0%N (PutNote 1%N (mkBody None None None None None None
                                   (Some true) (Some (Some 700))));
      Req 800 0%N (PatchArchive 1%N) ] ∅).
Proof.
  apply store_inv_preserved.
  - repeat (apply Forall_cons_2; [vm_compute; try exact I; by split|]).
    apply Forall_nil_2.
  - apply map_Forall_empty.
Defined.

(** * Further properties of the note routes *)

Lemma restore_note_found now id (db : gmap ObjectId Note) n :
  db !! id = Some n →
  ∃ n', restore_note now id db =
          (JsonNote 200 "Note restored from trash" id n', <[id := n']> db)
    ∧ deleted n' = false ∧ deletedAt n' = None ∧ eq_outside_trash n n'
    ∧ (deleted n = false → deletedAt n = None → n' = n).
Proof.
  intros Hl. unfold restore_note, findById. rewrite Hl, (save_eq _ _ _ _ _ Hl).
  eexists; split; [reflexivity|].
  destruct (decide _) as [He|Hne].
  - rewrite <- He. by destruct n.
  - repeat split; try by destruct n.
    intros Hd Ht. destruct Hne. destruct n; simpl in *; by subst.
Qed.

Lemma restore_note_miss now id (db : gmap ObjectId Note) :
  db !! id = None → restore_note now id db = (NotFound, db).
Proof. intros Hl. unfold restore_note, findById. by rewrite Hl. Qed.

Lemma trash_note_miss now id (db : gmap ObjectId Note) :
  db !! id = None → trash_note now id db = (NotFound, db).
Proof. intros Hl. unfold trash_note, findById. by rewrite Hl. Qed.

Lemma toggle_pin_miss now id (db : gmap ObjectId Note) :
  db !! id = None → toggle_pin now id db = (NotFound, db).
Proof. intros Hl. unfold toggle_pin, findById. by rewrite Hl. Qed.

Lemma toggle_archive_miss now id (db : gmap ObjectId Note) :
  db !! id = None → toggle_archive now id db = (NotFound, db).
Proof. intros Hl. unfold toggle_archive, findById. by rewrite Hl. Qed.





(** X3: the pin toggle and the archive toggle commute: done at the same
    two times in either order they leave the same collection. *)
Theorem toggle_pin_archive_commute t1 t2 id (db : gmap ObjectId Note) :
  (toggle_archive t2 id (toggle_pin t1 id db).2).2
  = (toggle_pin t2 id (toggle_archive t1 id db).2).2.
Proof.
  destruct (db !! id) as [n|] eqn:Hl.
  - rewrite (toggle_pin_found t1 id db n Hl),
      (toggle_archive_found t1 id db n Hl); cbn [snd].
    erewrite toggle_archive_found by apply lookup_insert_eq.
    erewrite toggle_pin_found by apply lookup_insert_eq.
    cbn [snd]. by rewrite !insert_insert_eq.
  - rewrite (toggle_pin_miss t1 id db Hl), (toggle_archive_miss t1 id db Hl);
      cbn [snd].
    by rewrite (toggle_pin_miss t2 id db Hl), (toggle_archive_miss t2 id db Hl).
Qed.



(** X5: permanent delete does not look at the note's state: on any
    existing note it removes exactly that document, and every id-addressed
    route then answers NotFound for the id without touching the
    collection. *)
Theorem delete_note_then_not_found t b id (db : gmap ObjectId Note) n :
  db !! id = Some n →
  let db' := (delete_note id db).2 in
  delete_note id db =
    (JsonMessage 200 "Note deleted successfully (permanently)", delete id db) ∧
  db' !! id = None ∧
  (∀ j, j ≠ id → db' !! j = db !! j) ∧
  update_note t id b db' = (NotFound, db') ∧
  delete_note id db' = (NotFound, db') ∧
  toggle_pin t id db' = (NotFound, db') ∧
  toggle_archive t id db' = (NotFound, db') ∧
  trash_note t id db' = (NotFound, db') ∧
  restore_note t id db' = (NotFound, db').
Proof.
  intros Hl db'.
  assert (Heq : delete_note id db =
    (JsonMessage 200 "Note deleted successfully (permanently)", delete id db)).
  { unfold delete_note, findById. by rewrite Hl. }
  subst db'. rewrite Heq. cbn [snd].
  assert (Hgone : delete id db !! id = None) by apply lookup_delete_eq.
  split; [done|]. split; [done|]. split.
  { intros j Hj. by apply lookup_delete_ne. }
  split; [unfold update_note, findById; by rewrite Hgone|].
  split; [unfold delete_note, findById; by rewrite Hgone|].
  split; [by apply toggle_pin_miss|].
  split; [by apply toggle_archive_miss|].
  split; [by apply trash_note_miss | by apply restore_note_miss].
Qed.

Lemma delete_note_then_not_found_witness :
  let db' := (delete_note 3%N sample_db).2 in
  delete_note 3%N sample_db =
    (JsonMessage 200 "Note deleted successfully (permanently)", delete 3%N sample_db) ∧
  db' !! 3%N = None ∧
  (∀ j, j ≠ 3%N → db' !! j = sample_db !! j) ∧
  update_note 500 3%N empty_body db' = (NotFound, db') ∧
  delete_note 3%N db' = (NotFound, db') ∧
  toggle_pin 500 3%N db' = (NotFound, db') ∧
  toggle_archive 500 3%N db' = (NotFound, db') ∧
  trash_note 500 3%N db' = (NotFound, db') ∧
  restore_note 500 3%N db' = (NotFound, db').
Proof.
  apply (delete_note_then_not_found 500 empty_body 3%N sample_db note_c).
  reflexivity.
Defined.

(** ** Listings *)

Section listings.
Implicit Types a b c : ObjectId * Note.

#[global] Instance by_createdAt_desc_total : Total by_createdAt_desc.
Proof. intros a b. unfold by_createdAt_desc. lia. Qed.

#[global] Instance by_createdAt_desc_trans : Transitive by_createdAt_desc.
Proof. intros a b c. unfold by_createdAt_desc. lia. Qed.

#[global] Instance by_deletedAt_desc_total : Total by_deletedAt_desc.
Proof.
  intros a b. unfold by_deletedAt_desc.
  destruct (deletedAt a.2), (deletedAt b.2); try tauto; lia.
Qed.

#[global] Instance by_deletedAt_desc_trans : Transitive by_deletedAt_desc.
Proof.
  intros a b c. unfold by_deletedAt_desc.
  destruct (deletedAt a.2), (deletedAt b.2), (deletedAt c.2); try tauto; lia.
Qed.

Lemma elem_of_list_notes_by_email X (db : gmap ObjectId Note) id n :
  (id, n) ∈ notes_of (list_notes_by_email X db)
  ↔ db !! id = Some n ∧ email n = X ∧ deleted n = false.
Proof.
  unfold list_notes_by_email; simpl.
  rewrite merge_sort_Permutation, elem_of_find.
  rewrite andb_true_iff, bool_decide_eq_true, negb_true_iff. tauto.
Qed.

Lemma elem_of_list_trash X (db : gmap ObjectId Note) id n :
  (id, n) ∈ notes_of (list_trash X db)
  ↔ db !! id = Some n ∧ email n = X ∧ deleted n = true.
Proof.
  unfold list_trash; simpl.
  rewrite merge_sort_Permutation, elem_of_find.
  rewrite andb_true_iff, bool_decide_eq_true. tauto.
Qed.

Lemma elem_of_list_notes (db : gmap ObjectId Note) id n :
  (id, n) ∈ notes_of (list_notes db) ↔ db !! id = Some n ∧ deleted n = false.
Proof.
  unfold list_notes; simpl.
  rewrite merge_sort_Permutation, elem_of_find.
  by rewrite negb_true_iff.
Qed.
End listings.

(** X6: the trash listing for [X] holds exactly the documents with
    [email == X] and [deleted == true], each once, ordered by [deletedAt]
    descending with [null] last; it never includes a note with
    [deleted == false]. *)
Theorem list_trash_spec X (db : gmap ObjectId Note) :
  ∃ l, list_trash X db = JsonNotes l
    ∧ (∀ id n, (id, n) ∈ l ↔ db !! id = Some n ∧ email n = X ∧ deleted n = true)
    ∧ NoDup l
    ∧ StronglySorted by_deletedAt_desc l
    ∧ Forall (λ kv, deleted kv.2 ≠ false) l.
Proof.
  eexists; split; [reflexivity|].
  split; [intros id n; apply (elem_of_list_trash X db id n)|].
  split; [|split].
  - rewrite merge_sort_Permutation. apply NoDup_find.
  - apply StronglySorted_merge_sort; apply _.
  - apply Forall_forall. intros [id n] Hin.
    apply (elem_of_list_trash X db id n) in Hin as (_ & _ & Hd).
    simpl. by rewrite Hd.
Qed.

(** X7: the global listing holds exactly the documents with
    [deleted == false], of every user, each once, newest first. *)
Theorem list_notes_spec (db : gmap ObjectId Note) :
  ∃ l, list_notes db = JsonNotes l
    ∧ (∀ id n, (id, n) ∈ l ↔ db !! id = Some n ∧ deleted n = false)
    ∧ NoDup l
    ∧ StronglySorted by_createdAt_desc l.
Proof.
  eexists; split; [reflexivity|].
  split; [intros id n; apply (elem_of_list_notes db id n)|]. split.
  - rewrite merge_sort_Permutation. apply NoDup_find.
  - apply StronglySorted_merge_sort; apply _.
Qed.

(** X8: the two per-user listings split a user's notes: a stored note
    appears in the active listing or in the trash listing of its owner,
    never in both, and in no listing of another user. *)
Theorem listings_partition (db : gmap ObjectId Note) id n :
  db !! id = Some n →
  (((id, n) ∈ notes_of (list_notes_by_email (email n) db))
     ↔ ((id, n) ∉ notes_of (list_trash (email n) db))) ∧
  (∀ X, X ≠ email n →
     ((id, n) ∉ notes_of (list_notes_by_email X db)) ∧
     ((id, n) ∉ notes_of (list_trash X db))).
Proof.
  intros Hl. split.
  - rewrite elem_of_list_notes_by_email, elem_of_list_trash.
    destruct (deleted n); intuition congruence.
  - intros X HX.
    rewrite elem_of_list_notes_by_email, elem_of_list_trash.
    intuition congruence.
Qed.

Lemma listings_partition_witness :
  (((3%N, note_c) ∈ notes_of (list_notes_by_email (email note_c) sample_db))
     ↔ ((3%N, note_c) ∉ notes_of (list_trash (email note_c) sample_db))) ∧
  (∀ X, X ≠ email note_c →
     ((3%N, note_c) ∉ notes_of (list_notes_by_email X sample_db)) ∧
     ((3%N, note_c) ∉ notes_of (list_trash X sample_db))).
Proof. apply (listings_partition sample_db 3%N note_c). reflexivity. Defined.



(** ** Creating a note *)

(** X10: with a non-empty [email] and an unused id, create answers 201
    and stores one new note: it belongs to that email, takes [pinned],
    [archived] and [color] from the body or their defaults, is active
    ([deleted = false], [deletedAt = null]) whatever the body says about
    those two keys, leaves every stored note as it was, and is listed at
    once among its owner's active notes. *)
Theorem create_note_success now oid b (db : gmap ObjectId Note) e :
  b_email b = Some e →
  e ≠ "" →
  db !! oid = None →
  ∃ n, create_note now oid b db =
         (JsonNote 201 "Note created successfully" oid n, <[oid := n]> db)
    ∧ email n = e ∧ deleted n = false ∧ deletedAt n = None
    ∧ pinned n = default false (b_pinned b)
    ∧ archived n = default false (b_archived b)
    ∧ color n = default "#ffffff" (b_color b)
    ∧ (∀ j m, db !! j = Some m → (create_note now oid b db).2 !! j = Some m)
    ∧ (oid, n) ∈ notes_of (list_notes_by_email e (create_note now oid b db).2).
Proof.
  intros He Hne Hfresh. unfold create_note. rewrite He, Hfresh.
  destruct (decide (e = "")) as [?|_]; [done|]. cbn [snd].
  eexists; split; [reflexivity|]. repeat split.
  - intros j m Hj. rewrite lookup_insert_ne; [done|]. congruence.
  - apply elem_of_list_notes_by_email. by rewrite lookup_insert_eq.
Qed.

Lemma create_note_success_witness :
  ∃ n, create_note 900 7%N
         (mkBody (Some "w@e.com") None None None (Some true) None
                 (Some true) (Some (Some 5))) sample_db =
         (JsonNote 201 "Note created successfully" 7%N n, <[7%N := n]> sample_db)
    ∧ email n = "w@e.com" ∧ deleted n = false ∧ deletedAt n = None
    ∧ pinned n = true ∧ archived n = false ∧ color n = "#ffffff"
    ∧ (∀ j m, sample_db !! j = Some m →
         (create_note 900 7%N
            (mkBody (Some "w@e.com") None None None (Some true) None
                    (Some true) (Some (Some 5))) sample_db).2 !! j = Some m)
    ∧ (7%N, n) ∈ notes_of (list_notes_by_email "w@e.com"
         (create_note 900 7%N
            (mkBody (Some "w@e.com") None None None (Some true) None
                    (Some true) (Some (Some 5))) sample_db).2).
Proof.
  apply (create_note_success 900 7%N
    (mkBody (Some "w@e.com") None None None (Some true) None
            (Some true) (Some (Some 5))) sample_db "w@e.com");
    [reflexivity | discriminate | reflexivity].
Defined.

(** X11: create answers 400 and stores nothing exactly when the body has
    no [email], an empty [email], or the generated id is already in use;
    in every other case the answer is not an error. *)
Theorem create_note_rejects_iff now oid b (db : gmap ObjectId Note) :
  (b_email b = None ∨ b_email b = Some "" ∨ is_Some (db !! oid))
  ↔ ∃ err, create_note now oid b db = (JsonError 400 (ErrMessage err), db).
Proof.
  unfold create_note. split.
  - intros [He|[He|[m Hm]]].
    + rewrite He. eauto.
    + rewrite He. simpl. eauto.
    + destruct (b_email b) as [e|]; [|eauto].
      destruct (decide _); [eauto|]. rewrite Hm. eauto.
  - intros [err Herr]. destruct (b_email b) as [e|]; [|by left].
    destruct (decide (e = "")) as [->|_]; [right; by left|].
    destruct (db !! oid) as [m|]; [right; right; eauto|]. discriminate Herr.
Qed.

(** ** More on the purge job *)

Lemma length_find_size P (db : gmap ObjectId Note) :
  length (find P db) = size (filter (λ kv : ObjectId * Note, P kv.2 = true) db).
Proof.
  unfold find. induction db as [|i x m Hi IH] using map_ind.
  - by rewrite map_to_list_empty, map_filter_empty, map_size_empty.
  - rewrite (map_to_list_insert m i x Hi), filter_cons, map_filter_insert.
    simpl. destruct (decide (P x = true)) as [HP|HP]; simpl.
    + rewrite IH, map_size_insert_None; [done|].
      apply map_lookup_filter_None. by left.
    + by rewrite IH, delete_id.
Qed.

Lemma size_deleteMany P (db : gmap ObjectId Note) :
  ((deleteMany P db).1 + size (deleteMany P db).2)%nat = size db.
Proof.
  unfold deleteMany; cbn [fst snd]. rewrite length_find_size.
  rewrite <- (map_filter_union_complement
    (λ kv : ObjectId * Note, P kv.2 = true) db) at 3.
  rewrite map_size_disj_union by apply map_disjoint_filter_complement.
  f_equal. f_equal. apply map_filter_ext. intros i x _. simpl.
  by destruct (P x).
Qed.

(** X12: the count a tick logs is the number of documents it removes:
    count plus what is left is the size of the collection before; the
    startup log reports the same count for the same clock and writes
    nothing. *)
Theorem purge_job_count now env (db : gmap ObjectId Note) :
  ((purge_job now env db).1 + size (purge_job now env db).2)%nat = size db ∧
  (initialPurgeLog now env db + size (purge_job now env db).2)%nat = size db.
Proof.
  unfold purge_job, cron_tick, initialPurgeLog.
  destruct (new_Date _) as [c|]; cbn [fst snd]; [|done].
  split; apply (size_deleteMany (purge_filter c) db).
Qed.

(** X13: ticks compose: when a tick has a valid cutoff, running it
    after an earlier tick whose cutoff is no later than its own leaves the
    collection that it alone would leave, so a repeated tick removes
    nothing more; a tick whose cutoff is an Invalid Date leaves what the
    earlier tick left. *)
Theorem purge_job_absorbs now1 env1 now2 env2 (db : gmap ObjectId Note) :
  cutoff now1 env1 ≤ cutoff now2 env2 →
  (valid_time (cutoff now2 env2) →
     (purge_job now2 env2 (purge_job now1 env1 db).2).2
       = (purge_job now2 env2 db).2) ∧
  (¬ valid_time (cutoff now2 env2) →
     (purge_job now2 env2 (purge_job now1 env1 db).2).2
       = (purge_job now1 env1 db).2).
Proof.
  intros Hc. split.
  - intros Hv. apply map_eq. intros id. rewrite !purge_job_lookup.
    destruct (db !! id) as [n|]; [|done].
    destruct (purge_removes now1 env1 n) eqn:H1; [|done].
    apply purge_removes_true in H1 as (_ & Hd & t & Ht & Hle).
    rewrite (proj2 (purge_removes_true now2 env2 n)); [done|].
    split; [done|]. split; [done|]. exists t. split; [done|lia].
  - intros Hv. unfold purge_job at 1.
    by rewrite (cron_tick_invalid now2 env2 _ Hv).
Qed.

Lemma purge_job_absorbs_witness :
  (purge_job 604800010 None (purge_job 604800010 None sample_db).2).2
    = (purge_job 604800010 None sample_db).2 ∧
  (purge_job 500 (Some (-200000000)) (purge_job 604800010 None sample_db).2).2
    = (purge_job 604800010 None sample_db).2.
Proof.
  split.
  - apply (proj1 (purge_job_absorbs 604800010 None 604800010 None sample_db
                    ltac:(vm_compute; discriminate))).
    vm_compute. split; discriminate.
  - apply (proj2 (purge_job_absorbs 604800010 None 500 (Some (-200000000))
                    sample_db ltac:(vm_compute; discriminate))).
    vm_compute. intros [_ Hle]. by apply Hle.
Defined.

(** X14: a tick never removes a note whose [deleted] flag is false,
    whatever its [deletedAt], so the active listing of every user has the
    same members after the tick as before. *)
Theorem purge_job_keeps_active now env (db : gmap ObjectId Note) :
  (∀ id n, db !! id = Some n → deleted n = false →
     (purge_job now env db).2 !! id = Some n) ∧
  (∀ X id n, (id, n) ∈ notes_of (list_notes_by_email X (purge_job now env db).2)
     ↔ (id, n) ∈ notes_of (list_notes_by_email X db)).
Proof.
  assert (Hkeep : ∀ id n, db !! id = Some n → deleted n = false →
     (purge_job now env db).2 !! id = Some n).
  { intros id n Hl Hd. rewrite purge_job_lookup, Hl.
    by rewrite purge_removes_kept by (by left). }
  split; [exact Hkeep|].
  intros X id n. rewrite !elem_of_list_notes_by_email. split.
  - intros (Hl & He & Hd). split; [|done].
    rewrite purge_job_lookup in Hl. destruct (db !! id) as [m|]; [|done].
    by destruct (purge_removes _ _ m).
  - intros (Hl & He & Hd). split; [|done]. by apply Hkeep.
Qed.

Lemma purge_job_keeps_active_witness :
  (purge_job 604800010 None sample_db).2 !! 1%N = Some note_a.
Proof.
  apply (proj1 (purge_job_keeps_active 604800010 None sample_db) 1%N note_a);
    reflexivity.
Defined.

(** X15: a retention of zero days cannot be configured: [0], like an
    unset variable, falls back to 7 days, so the retention is never zero
    and under [TRASH_RETENTION_DAYS=0] a note trashed less than 7 days
    before the tick is kept. *)
Theorem retention_zero_falls_back now (db : gmap ObjectId Note) id n t :
  db !! id = Some n →
  deletedAt n = Some t →
  now - 7 * 86400000 < t →
  TRASH_RETENTION_DAYS (Some 0) = 7 ∧
  TRASH_RETENTION_DAYS None = 7 ∧
  (∀ env, TRASH_RETENTION_DAYS env ≠ 0) ∧
  (purge_job now (Some 0) db).2 !! id = Some n.
Proof.
  intros Hl Ht Hlt. split; [done|]. split; [done|]. split.
  - intros [d|]; simpl; [|done]. by destruct (decide (d = 0)).
  - rewrite purge_job_lookup, Hl.
    destruct (purge_removes _ _ n) eqn:Hp; [|done].
    apply purge_removes_true in Hp as (_ & _ & t' & Ht' & Hle).
    rewrite Ht in Ht'. injection Ht' as <-.
    unfold cutoff in Hle. simpl in Hle. lia.
Qed.

Lemma retention_zero_falls_back_witness :
  TRASH_RETENTION_DAYS (Some 0) = 7 ∧
  TRASH_RETENTION_DAYS None = 7 ∧
  (∀ env, TRASH_RETENTION_DAYS env ≠ 0) ∧
  (purge_job 20 (Some 0) sample_db).2 !! 3%N = Some note_c.
Proof.
  apply (retention_zero_falls_back 20 sample_db 3%N note_c 10);
    [reflexivity | reflexivity | vm_compute; reflexivity].
Defined.

(** X16: a negative whole number of [TRASH_RETENTION_DAYS] is taken as
    it is and puts the cutoff after the tick time.  As long as that cutoff
    is still a valid date, the tick removes every note with
    [deleted = true] whose [deletedAt] is not in the future; once the
    cutoff leaves the range of a [Date] the tick fails and removes
    nothing. *)
Theorem negative_retention_purges_all d now (db : gmap ObjectId Note) id n t :
  d < 0 →
  db !! id = Some n →
  deleted n = true →
  deletedAt n = Some t →
  t ≤ now →
  now < cutoff now (Some d) ∧
  (valid_time (cutoff now (Some d)) →
     (purge_job now (Some d) db).2 !! id = None) ∧
  (¬ valid_time (cutoff now (Some d)) →
     (purge_job now (Some d) db).2 = db).
Proof.
  intros Hd Hl Hdel Ht Hle.
  assert (Hc : now < cutoff now (Some d)).
  { unfold cutoff; simpl. destruct (decide (d = 0)); lia. }
  split; [done|]. split.
  - intros Hv. rewrite purge_job_lookup, Hl.
    rewrite (proj2 (purge_removes_true _ _ n)); [done|].
    split; [done|]. split; [done|]. exists t. split; [done|lia].
  - intros Hv. unfold purge_job. by rewrite (cron_tick_invalid _ _ _ Hv).
Qed.

Lemma negative_retention_purges_all_witness :
  (purge_job 500 (Some (-1)) sample_db).2 !! 3%N = None ∧
  (purge_job 500 (Some (-200000000)) sample_db).2 = sample_db.
Proof.
  split.
  - apply (proj1 (proj2 (negative_retention_purges_all (-1) 500 sample_db 3%N
      note_c 10 eq_refl eq_refl eq_refl eq_refl ltac:(vm_compute; discriminate)))).
    vm_compute. split; discriminate.
  - apply (proj2 (proj2 (negative_retention_purges_all (-200000000) 500
      sample_db 3%N note_c 10 eq_refl eq_refl eq_refl eq_refl
      ltac:(vm_compute; discriminate)))).
    vm_compute. intros [_ Hle]. by apply Hle.
Defined.





(** ** Which routes add, remove or rewrite documents *)

Lemma handle_found_insert now oid r id (db : gmap ObjectId Note) n :
  r = PatchPin id ∨ r = PatchArchive id ∨ r = PutTrash id ∨ r = PutRestore id
    ∨ (∃ b, r = PutNote id b) →
  db !! id = Some n →
  ∃ n', (handle now oid r db).2 = <[id := n']> db
    ∧ ((∀ b, r ≠ PutNote id b) → same_content n n').
Proof.
  intros Hr Hl. destruct Hr as [->|[->|[->|[->|[b ->]]]]]; simpl.
  - rewrite (toggle_pin_found now id db n Hl). eexists; split; [done|].
    by intros _.
  - rewrite (toggle_archive_found now id db n Hl). eexists; split; [done|].
    by intros _.
  - destruct (trash_note_found now id db n Hl)
      as (n' & -> & _ & _ & (? & ? & ? & ? & _ & _ & ?)).
    exists n'. split; [done|]. by intros _.
  - destruct (restore_note_found now id db n Hl)
      as (n' & -> & _ & _ & (? & ? & ? & ? & _ & _ & ?) & _).
    exists n'. split; [done|]. by intros _.
  - unfold update_note, findById. rewrite Hl. eexists; split; [done|].
    intros Hb. by destruct (Hb b).
Qed.

Lemma handle_miss now oid r id (db : gmap ObjectId Note) :
  r = PatchPin id ∨ r = PatchArchive id ∨ r = PutTrash id ∨ r = PutRestore id
    ∨ (∃ b, r = PutNote id b) ∨ r = DeleteNote id →
  db !! id = None →
  handle now oid r db = (NotFound, db).
Proof.
  intros Hr Hl. destruct Hr as [->|[->|[->|[->|[[b ->]| ->]]]]]; simpl.
  - by apply toggle_pin_miss.
  - by apply toggle_archive_miss.
  - by apply trash_note_miss.
  - by apply restore_note_miss.
  - unfold update_note, findById. by rewrite Hl.
  - unfold delete_note, findById. by rewrite Hl.
Qed.

(** X19: only create adds a document and only permanent delete removes
    one: create leaves every stored id in place and adds at most the
    generated id, delete removes at most the addressed id, and every other
    route (the listings, the partial update, the toggles, trash, restore)
    leaves the set of stored ids as it was; the partial update never
    inserts a missing note. *)
Theorem handle_dom now oid r (db : gmap ObjectId Note) :
  match r with
  | PostNote _ =>
      dom db ⊆ dom (handle now oid r db).2 ∧
      dom (handle now oid r db).2 ⊆ dom db ∪ {[oid]}
  | DeleteNote id => dom (handle now oid r db).2 = dom db ∖ {[id]}
  | _ => dom (handle now oid r db).2 = dom db
  end.
Proof.
  assert (Hupd : ∀ id r',
    r' = PatchPin id ∨ r' = PatchArchive id ∨ r' = PutTrash id
      ∨ r' = PutRestore id ∨ (∃ b, r' = PutNote id b) →
    dom (handle now oid r' db).2 = dom db).
  { intros id r' Hr'. destruct (db !! id) as [n|] eqn:Hl.
    - destruct (handle_found_insert now oid r' id db n Hr' Hl) as (n' & -> & _).
      apply dom_insert_lookup_L. eauto.
    - rewrite (handle_miss now oid r' id db); [done| |done]. tauto. }
  destruct r as [ | X | b | id b | id | id | id | id | id | X ];
    try done; try (apply (Hupd id); eauto 10); clear Hupd.
  - simpl. unfold create_note.
    destruct (b_email b) as [e|]; [|set_solver].
    destruct (decide _); [set_solver|].
    destruct (db !! oid); cbn [snd]; [set_solver|].
    rewrite dom_insert_L. split; [apply union_subseteq_r|].
    by rewrite (comm_L (∪)).
  - simpl. unfold delete_note, findById.
    destruct (db !! id) as [n|] eqn:Hl; cbn [snd].
    + apply dom_delete_L.
    + apply not_elem_of_dom in Hl. symmetry.
      by apply difference_disjoint_L, disjoint_singleton_r.
Qed.

(** X20: no route but the partial update rewrites what a note says: for
    every other request, a note that is still stored afterwards has the
    [email], [title], [content], [color] and [createdAt] it had before. *)
Theorem handle_keeps_content now oid r (db : gmap ObjectId Note) id n n' :
  (∀ j b, r ≠ PutNote j b) →
  db !! id = Some n →
  (handle now oid r db).2 !! id = Some n' →
  same_content n n'.
Proof.
  intros Hr Hl.
  assert (Hsame : db !! id = Some n' → same_content n n').
  { rewrite Hl. by intros [= <-]. }
  assert (Hupd : ∀ j,
    r = PatchPin j ∨ r = PatchArchive j ∨ r = PutTrash j ∨ r = PutRestore j →
    (handle now oid r db).2 !! id = Some n' → same_content n n').
  { intros j Hj. destruct (db !! j) as [m|] eqn:Hm.
    - destruct (handle_found_insert now oid r j db m) as (m' & -> & Hc);
        [tauto | done |].
      destruct (decide (j = id)) as [->|Hne].
      + rewrite lookup_insert_eq. intros [= <-].
        rewrite Hl in Hm. injection Hm as <-. apply Hc. intros b. apply Hr.
      + by rewrite lookup_insert_ne.
    - rewrite (handle_miss now oid r j db); [done| |done]. tauto. }
  destruct r as [ | X | b | j b | j | j | j | j | j | X ];
    try done; try (apply (Hupd j); tauto).
  - simpl. unfold create_note.
    destruct (b_email b) as [e|]; [|done].
    destruct (decide _); [done|].
    destruct (db !! oid) eqn:Ho; cbn [snd]; [done|].
    rewrite lookup_insert_ne; [done|]. congruence.
  - by destruct (Hr j b).
  - simpl. unfold delete_note, findById.
    destruct (db !! j); cbn [snd]; [|done].
    rewrite lookup_delete_Some. intros [_ ?]. by apply Hsame.
Qed.

Lemma handle_keeps_content_witness :
  same_content note_a
    (set_updatedAt 500 (set_deletedAt (Some 500) (set_deleted true note_a))).
Proof.
  apply (handle_keeps_content 500 0%N (PutTrash 1%N) sample_db 1%N note_a);
    [discriminate | reflexivity | reflexivity].
Defined.

(** ** The partial update *)

Lemma default_from_option {A} (x : A) (a b : option A) :
  default (default x a) b = default x (from_option Some a b).
Proof. by destruct b. Qed.

(** X21: partial updates compose by merging their bodies, the later key
    winning: two updates in a row leave the collection that one update
    with the merged body, done at the later time, would leave; an update
    with an empty body only sets [updatedAt]. *)
Theorem update_note_twice t1 t2 id b1 b2 (db : gmap ObjectId Note) :
  (update_note t2 id b2 (update_note t1 id b1 db).2).2
    = (update_note t2 id (merge_body b1 b2) db).2 ∧
  (∀ n, db !! id = Some n →
     update_note t1 id empty_body db =
       (JsonNote 200 "Note updated successfully" id (set_updatedAt t1 n),
        <[id := set_updatedAt t1 n]> db)).
Proof.
  split.
  - unfold update_note, findById. destruct (db !! id) as [n|] eqn:Hl.
    + cbn [snd]. rewrite lookup_insert_eq. cbn [snd].
      rewrite insert_insert_eq. f_equal.
      unfold apply_set, set_updatedAt, merge_body; simpl.
      by rewrite !default_from_option.
    + cbn [snd]. by rewrite Hl.
  - intros n Hl. unfold update_note, findById. rewrite Hl. by destruct n.
Qed.

Lemma update_note_twice_witness :
  update_note 500 1%N empty_body sample_db =
    (JsonNote 200 "Note updated successfully" 1%N (set_updatedAt 500 note_a),
     <[1%N := set_updatedAt 500 note_a]> sample_db).
Proof.
  apply (proj2 (update_note_twice 500 600 1%N empty_body empty_body sample_db)
           note_a).
  reflexivity.
Defined.

(** X22: a partial update that sets [deleted: true] alone puts a note
    into the trash listing with [deletedAt] still [null], and such a note
    is never removed by the purge job. *)
Theorem update_deleted_alone_never_purged now id (db : gmap ObjectId Note) n :
  db !! id = Some n →
  deletedAt n = None →
  let db' := (update_note now id
                (mkBody None None None None None None (Some true) None) db).2 in
  ∃ n', db' !! id = Some n'
    ∧ deleted n' = true ∧ deletedAt n' = None
    ∧ (id, n') ∈ notes_of (list_trash (email n) db')
    ∧ ∀ t env, (purge_job t env db').2 !! id = Some n'.
Proof.
  intros Hl Ht db'. subst db'. unfold update_note, findById. rewrite Hl.
  cbn [snd]. eexists. split; [apply lookup_insert_eq|].
  split; [done|]. split; [done|]. split.
  - apply elem_of_list_trash. by rewrite lookup_insert_eq.
  - intros t env. rewrite purge_job_lookup, lookup_insert_eq.
    rewrite purge_removes_kept; [done|]. right. exact Ht.
Qed.

Lemma update_deleted_alone_never_purged_witness :
  let db' := (update_note 500 1%N
                (mkBody None None None None None None (Some true) None)
                sample_db).2 in
  ∃ n', db' !! 1%N = Some n'
    ∧ deleted n' = true ∧ deletedAt n' = None
    ∧ (1%N, n') ∈ notes_of (list_trash (email note_a) db')
    ∧ ∀ t env, (purge_job t env db').2 !! 1%N = Some n'.
Proof.
  apply (update_deleted_alone_never_purged 500 1%N sample_db note_a);
    reflexivity.
Defined.

(** * The user routes *)

Section users.
Implicit Types (db : gmap ObjectId User) (u v : User) (P : User → bool).

Lemma findOne_Some P db id u :
  findOne P db = Some (id, u) → db !! id = Some u ∧ P u = true.
Proof.
  unfold findOne. intros Hh.
  assert (Hin : (id, u) ∈ filter (λ kv : ObjectId * User, P kv.2 = true)
                  (map_to_list db)).
  { destruct (filter _ _) as [|x l]; [done|].
    simpl in Hh. injection Hh as ->. apply list_elem_of_here. }
  apply list_elem_of_filter in Hin as [HP Hin].
  by apply elem_of_map_to_list in Hin.
Qed.

Lemma findOne_None P db :
  findOne P db = None ↔ ∀ id u, db !! id = Some u → P u = false.
Proof.
  unfold findOne. split.
  - intros Hh id u Hl. destruct (P u) eqn:HP; [|done].
    assert (Hin : (id, u) ∈ filter (λ kv : ObjectId * User, P kv.2 = true)
                    (map_to_list db)).
    { apply list_elem_of_filter. split; [done|]. by apply elem_of_map_to_list. }
    destruct (filter _ _); [by apply elem_of_nil in Hin | done].
  - intros Hall.
    destruct (filter _ _) as [|[id u] l] eqn:Hf; [done|].
    assert (Hin : (id, u) ∈ filter (λ kv : ObjectId * User, P kv.2 = true)
                    (map_to_list db)).
    { rewrite Hf. apply list_elem_of_here. }
    apply list_elem_of_filter in Hin as [HP Hin].
    apply elem_of_map_to_list in Hin. simpl in HP.
    rewrite (Hall id u Hin) in HP. discriminate.
Qed.

Lemma findOne_unique P db id u :
  db !! id = Some u → P u = true →
  (∀ j v, db !! j = Some v → P v = true → j = id) →
  findOne P db = Some (id, u).
Proof.
  intros Hl HP Huniq. destruct (findOne P db) as [[j v]|] eqn:Hf.
  - apply findOne_Some in Hf as [Hj Hv].
    assert (j = id) as -> by eauto. congruence.
  - rewrite (proj1 (findOne_None P db) Hf id u Hl) in HP. discriminate.
Qed.

Lemma taken_false P id db :
  taken P id db = false ↔ ∀ j v, db !! j = Some v → j ≠ id → P v = false.
Proof.
  unfold taken. split.
  - intros Ht j v Hj Hne.
    destruct (findOne P (delete id db)) eqn:Hf; [done|].
    apply (proj1 (findOne_None P _) Hf j v). by rewrite lookup_delete_ne.
  - intros Hall.
    destruct (findOne P (delete id db)) as [[j v]|] eqn:Hf; [|done].
    apply findOne_Some in Hf as [Hj Hv].
    apply lookup_delete_Some in Hj as [Hne Hj].
    rewrite (Hall j v Hj) in Hv; [done|congruence].
Qed.

Lemma taken_true P id db :
  taken P id db = true ↔ ∃ j v, db !! j = Some v ∧ j ≠ id ∧ P v = true.
Proof.
  split.
  - unfold taken. destruct (findOne P (delete id db)) as [[j v]|] eqn:Hf; [|done].
    intros _. apply findOne_Some in Hf as [Hj Hv].
    apply lookup_delete_Some in Hj as [Hne Hj]. exists j, v. eauto.
  - intros (j & v & Hj & Hne & Hv).
    destruct (taken P id db) eqn:Ht; [done|].
    rewrite (proj1 (taken_false P id db) Ht j v Hj Hne) in Hv. discriminate.
Qed.

Lemma findOne_email db id u :
  users_unique db → db !! id = Some u →
  findOne (λ v, bool_decide (user_email v = user_email u)) db = Some (id, u).
Proof.
  intros Hu Hl. apply findOne_unique; [done | by apply bool_decide_eq_true|].
  intros j v Hj Hv. apply bool_decide_eq_true in Hv.
  apply (Hu j id v u Hj Hl). by left.
Qed.

Lemma required_Some (o : option string) s :
  required o = Some s ↔ o = Some s ∧ s ≠ "".
Proof.
  unfold required. destruct o as [x|]; [|intuition congruence].
  destruct (decide (x = "")); intuition congruence.
Qed.

Lemma required_None (o : option string) :
  required o = None ↔ o = None ∨ o = Some "".
Proof.
  unfold required. destruct o as [x|]; [|intuition congruence].
  destruct (decide (x = "")); intuition congruence.
Qed.

(** What a successful registration looks like. *)
Lemma register_ok now oid username email password file db
    (un e p : string) :
  username = Some un → un ≠ "" → email = Some e → e ≠ "" →
  password = Some p → p ≠ "" →
  db !! oid = None →
  (∀ j v, db !! j = Some v → user_email v ≠ e ∧ user_username v ≠ Some un) →
  register now oid username email password file db =
    (JsonUser 201 "User registered successfully" oid
       (mkUser (upload_path now file) (Some un) e (Some p)),
     <[oid := mkUser (upload_path now file) (Some un) e (Some p)]> db).
Proof.
  intros -> Hu -> He -> Hp Hfresh Hfree. unfold register.
  rewrite (proj2 (required_Some (Some un) un)), (proj2 (required_Some (Some e) e)),
    (proj2 (required_Some (Some p) p)) by done.
  rewrite bool_decide_eq_false_2 by (rewrite Hfresh; by intros [? ?]).
  rewrite (proj2 (taken_false _ oid db)), (proj2 (taken_false _ oid db)); [done| |].
  - intros j v Hj _. apply bool_decide_eq_false. by apply (Hfree j v).
  - intros j v Hj _. apply bool_decide_eq_false. by apply (Hfree j v).
Qed.
End users.

Lemma users_unique_insert (db : gmap ObjectId User) id (u : User) :
  users_unique db →
  (∀ j v, db !! j = Some v → j ≠ id →
     user_email v ≠ user_email u ∧ user_username v ≠ user_username u) →
  users_unique (<[id := u]> db).
Proof.
  intros Hu Hfree i j a b Hi Hj Heq.
  apply lookup_insert_Some in Hi as [[<- <-]|[Hi1 Hi2]];
    apply lookup_insert_Some in Hj as [[<- <-]|[Hj1 Hj2]]; try done.
  - destruct (Hfree j b Hj2) as [? ?]; [done|]. destruct Heq; congruence.
  - destruct (Hfree i a Hi2) as [? ?]; [done|]. destruct Heq; congruence.
  - by apply (Hu i j a b).
Qed.

Lemma findOne_insert_email (db : gmap ObjectId User) id (u : User) :
  (∀ j v, db !! j = Some v → j ≠ id → user_email v ≠ user_email u) →
  findOne (λ v, bool_decide (user_email v = user_email u)) (<[id := u]> db)
    = Some (id, u).
Proof.
  intros Hfree. apply findOne_unique.
  - apply lookup_insert_eq.
  - by apply bool_decide_eq_true.
  - intros j v Hj Hv. apply bool_decide_eq_true in Hv.
    apply lookup_insert_Some in Hj as [[? _]|[Hne Hj]]; [done|].
    by destruct (Hfree j v Hj).
Qed.

(** The two unique indexes, as the model has them, keep [email] and
    [username] unique; the user theorems below take [users_unique] as
    their hypothesis on the collection. *)
Lemma users_unique_preserved omitUndefined now oid username email password
    file e (db : gmap ObjectId User) :
  users_unique db →
  users_unique (register now oid username email password file db).2 ∧
  users_unique (update_profile omitUndefined now e username password file db).2.
Proof.
  intros Hu. split.
  - unfold register.
    destruct (required username) as [un|]; [|done].
    destruct (required email) as [em|]; [|done].
    destruct (required password) as [pw|]; [|done].
    destruct (_ || _) eqn:Hc; [done|]. cbn [snd].
    apply orb_false_iff in Hc as [Hc Hname].
    apply orb_false_iff in Hc as [_ Hmail].
    apply users_unique_insert; [done|]. intros j v Hj Hne. simpl. split.
    + apply (bool_decide_eq_false (user_email v = em)).
      by apply (proj1 (taken_false _ oid db) Hmail j v).
    + apply (bool_decide_eq_false (user_username v = Some un)).
      by apply (proj1 (taken_false _ oid db) Hname j v).
  - unfold update_profile.
    destruct (findOne _ db) as [[id u]|] eqn:Hf; [|done].
    apply findOne_Some in Hf as [Hl _].
    destruct (taken _ id db) eqn:Ht; [done|]. cbn [snd].
    apply users_unique_insert; [done|]. intros j v Hj Hne. simpl. split.
    + intros Heq. apply Hne. apply (Hu j id v u Hj Hl). by left.
    + apply (bool_decide_eq_false (user_username v = _)).
      by apply (proj1 (taken_false _ id db) Ht j v).
Qed.

(** X24: a registration with non-empty [username], [email] and
    [password] that clash with no stored user answers 201 and stores the
    user; a login with that email and password then succeeds and returns
    the user without the password, and a login with any other password is
    refused. *)
Theorem register_then_login now oid username email password file
    (db : gmap ObjectId User) (un e p : string) :
  username = Some un → un ≠ "" →
  email = Some e → e ≠ "" →
  password = Some p → p ≠ "" →
  db !! oid = None →
  (∀ j v, db !! j = Some v → user_email v ≠ e ∧ user_username v ≠ Some un) →
  let db' := (register now oid username email password file db).2 in
  (register now oid username email password file db).1
    = JsonUser 201 "User registered successfully" oid
        (mkUser (upload_path now file) (Some un) e (Some p)) ∧
  login e (Some p) db'
    = JsonLogin "Login successful"
        (mkPublicUser oid (upload_path now file) (Some un) e) ∧
  (∀ q, q ≠ Some p → login e q db' = InvalidLogin).
Proof.
  intros Hun Hu He He' Hp Hp' Hfresh Hfree db'. subst db'.
  rewrite (register_ok now oid username email password file db un e p)
    by done.
  cbn [fst snd]. split; [done|].
  set (usr := mkUser (upload_path now file) (Some un) e (Some p)).
  assert (Hf : findOne (λ v, bool_decide (user_email v = e)) (<[oid := usr]> db)
                 = Some (oid, usr)).
  { apply (findOne_insert_email db oid usr). intros j v Hj _.
    by destruct (Hfree j v Hj). }
  unfold login. rewrite Hf. simpl. split.
  - by rewrite decide_True.
  - intros [q|] Hq; [|done]. rewrite decide_False; [done|congruence].
Qed.

Lemma register_then_login_witness :
  let db' := (register 1700000000000 3%N (Some "cy") (Some "cy@e.com")
                (Some "pw") (Some "me.png") sample_users).2 in
  (register 1700000000000 3%N (Some "cy") (Some "cy@e.com")
     (Some "pw") (Some "me.png") sample_users).1
    = JsonUser 201 "User registered successfully" 3%N
        (mkUser (upload_path 1700000000000 (Some "me.png")) (Some "cy")
                "cy@e.com" (Some "pw")) ∧
  login "cy@e.com" (Some "pw") db'
    = JsonLogin "Login successful"
        (mkPublicUser 3%N (upload_path 1700000000000 (Some "me.png"))
                      (Some "cy") "cy@e.com") ∧
  (∀ q, q ≠ Some "pw" → login "cy@e.com" q db' = InvalidLogin).
Proof.
  apply (register_then_login 1700000000000 3%N (Some "cy") (Some "cy@e.com")
           (Some "pw") (Some "me.png") sample_users "cy" "cy@e.com" "pw");
    try reflexivity; try discriminate.
  intros j v Hj. unfold sample_users in Hj.
  apply lookup_insert_Some in Hj as [[_ <-]|[_ Hj]]; [by split|].
  apply lookup_insert_Some in Hj as [[_ <-]|[_ Hj]]; [by split|].
  by rewrite lookup_empty in Hj.
Defined.

(** X25: registration answers 400 and stores nothing exactly when
    [username], [email] or [password] is missing or empty, the generated
    id is in use, or a stored user already has that email or that
    username. *)
Theorem register_rejects_iff now oid username email password file
    (db : gmap ObjectId User) :
  (required username = None ∨ required email = None ∨ required password = None
   ∨ is_Some (db !! oid)
   ∨ ∃ j v, db !! j = Some v
       ∧ (email = Some (user_email v) ∨ username = user_username v))
  ↔ ∃ err, register now oid username email password file db
             = (JsonUserError 400 (ErrMessage err), db).
Proof.
  unfold register.
  destruct (required username) as [un|] eqn:Hun; [|split; eauto].
  destruct (required email) as [em|] eqn:Hem; [|split; eauto].
  destruct (required password) as [pw|] eqn:Hpw; [|split; eauto 6].
  apply required_Some in Hun as [-> Hun]. apply required_Some in Hem as [-> Hem].
  destruct (_ || _) eqn:Hc.
  - split; [eauto|]. intros _.
    apply orb_true_iff in Hc as [Hc|Hc]; [apply orb_true_iff in Hc as [Hc|Hc]|].
    + apply bool_decide_eq_true in Hc. tauto.
    + apply taken_true in Hc as (j & v & Hj & _ & Hv).
      apply bool_decide_eq_true in Hv. do 4 right. exists j, v. split; [done|].
      left. by rewrite Hv.
    + apply taken_true in Hc as (j & v & Hj & _ & Hv).
      apply bool_decide_eq_true in Hv. do 4 right. exists j, v. split; [done|].
      by right.
  - split; [|intros [err Herr]; discriminate Herr].
    apply orb_false_iff in Hc as [Hc Hname].
    apply orb_false_iff in Hc as [Hid Hmail].
    apply bool_decide_eq_false in Hid.
    intros [?|[?|[?|[?|(j & v & Hj & Hv)]]]]; try done.
    assert (j ≠ oid) as Hne.
    { intros ->. apply Hid. eauto. }
    destruct Hv as [[= ->]|Hv].
    + pose proof (proj1 (taken_false _ oid db) Hmail j v Hj Hne) as Hb.
      apply bool_decide_eq_false in Hb. by destruct Hb.
    + pose proof (proj1 (taken_false _ oid db) Hname j v Hj Hne) as Hb.
      apply bool_decide_eq_false in Hb. by destruct Hb.
Qed.

(** X26: under unique emails, a login succeeds exactly when a stored user
    has that email and a password equal to the one given, and then returns
    that user without the password; every other login gets the one answer
    401 [Invalid email or password], for an unknown email as for a wrong
    password. *)
Theorem login_iff e password (db : gmap ObjectId User) :
  users_unique db →
  (∀ pu, login e password db = JsonLogin "Login successful" pu
     ↔ ∃ id u p, db !! id = Some u ∧ user_email u = e
         ∧ user_password u = Some p ∧ password = Some p
         ∧ pu = without_password id u) ∧
  (login e password db = InvalidLogin
   ∨ ∃ pu, login e password db = JsonLogin "Login successful" pu).
Proof.
  intros Hu. split.
  - intros pu. split.
    + unfold login.
      destruct (findOne _ db) as [[id u]|] eqn:Hf; [|done].
      apply findOne_Some in Hf as [Hl He]. apply bool_decide_eq_true in He.
      destruct (user_password u) as [s|] eqn:Hs; [|done].
      destruct password as [g|]; [|done].
      destruct (decide (s = g)) as [->|]; [|done].
      intros [= <-]. exists id, u, g. eauto.
    + intros (id & u & p & Hl & <- & Hp & -> & ->).
      unfold login. rewrite (findOne_email db id u Hu Hl), Hp.
      by rewrite decide_True.
  - unfold login. destruct (findOne _ db) as [[id u]|]; [|by left].
    destruct (user_password u), password; try by left.
    destruct (decide _); [right; eauto | by left].
Qed.

Lemma login_iff_witness :
  login "bob@e.com" (Some "pw2") sample_users
    = JsonLogin "Login successful" (without_password 2%N user_bob).
Proof.
  assert (Hu : users_unique sample_users).
  { apply users_unique_insert.
    - apply users_unique_insert; [|intros j v Hj; by rewrite lookup_empty in Hj].
      intros i j u v Hi. by rewrite lookup_empty in Hi.
    - intros j v Hj Hne.
      apply lookup_insert_Some in Hj as [[_ <-]|[_ Hj]]; [by split|].
      by rewrite lookup_empty in Hj. }
  apply (proj1 (login_iff "bob@e.com" (Some "pw2") sample_users Hu)).
  exists 2%N, user_bob, "pw2". repeat split; reflexivity.
Defined.

(** X27: after a successful registration the profile route returns the
    user's [username] and [email], and as [photo] the upload path
    [/uploads/<time>-<original name>] prefixed with protocol and host when
    a photo was sent, [null] when none was. *)
Theorem register_then_get_profile protocol host now oid username email password
    file (db : gmap ObjectId User) (un e p : string) :
  username = Some un → un ≠ "" →
  email = Some e → e ≠ "" →
  password = Some p → p ≠ "" →
  db !! oid = None →
  (∀ j v, db !! j = Some v → user_email v ≠ e ∧ user_username v ≠ Some un) →
  get_profile protocol host e
    (register now oid username email password file db).2
  = JsonProfile (Some un) e
      match file with
      | Some originalname =>
          Some (protocol +:+ "://" +:+ host +:+
                ("/uploads/" +:+ pretty now +:+ "-" +:+ originalname))
      | None => None
      end.
Proof.
  intros Hun Hu He He' Hp Hp' Hfresh Hfree.
  rewrite (register_ok now oid username email password file db un e p)
    by done.
  cbn [snd].
  set (usr := mkUser (upload_path now file) (Some un) e (Some p)).
  assert (Hf : findOne (λ v, bool_decide (user_email v = e)) (<[oid := usr]> db)
                 = Some (oid, usr)).
  { apply (findOne_insert_email db oid usr). intros j v Hj _.
    by destruct (Hfree j v Hj). }
  unfold get_profile. rewrite Hf. simpl. by destruct file.
Qed.

Lemma register_then_get_profile_witness :
  get_profile "https" "x.org" "cy@e.com"
    (register 1700000000000 3%N (Some "cy") (Some "cy@e.com") (Some "pw")
       (Some "me.png") sample_users).2
  = JsonProfile (Some "cy") "cy@e.com"
      (Some ("https" +:+ "://" +:+ "x.org" +:+
             ("/uploads/" +:+ pretty 1700000000000 +:+ "-" +:+ "me.png"))).
Proof.
  apply (register_then_get_profile "https" "x.org" 1700000000000 3%N
           (Some "cy") (Some "cy@e.com") (Some "pw") (Some "me.png")
           sample_users "cy" "cy@e.com" "pw");
    try reflexivity; try discriminate.
  intros j v Hj. unfold sample_users in Hj.
  apply lookup_insert_Some in Hj as [[_ <-]|[_ Hj]]; [by split|].
  apply lookup_insert_Some in Hj as [[_ <-]|[_ Hj]]; [by split|].
  by rewrite lookup_empty in Hj.
Defined.

Lemma update_profile_ok omitUndefined now e username password file
    (db : gmap ObjectId User) id (u' : User) :
  (update_profile omitUndefined now e username password file db).1
    = JsonUser 200 "Profile updated successfully" id u' →
  ∃ u, db !! id = Some u ∧ user_email u = e
    ∧ u' = mkUser (from_option Some (user_photo u) (upload_path now file))
                  (set_or_undefined omitUndefined username (user_username u))
                  (user_email u)
                  (set_or_undefined omitUndefined password (user_password u))
    ∧ (update_profile omitUndefined now e username password file db).2
        = <[id := u']> db.
Proof.
  unfold update_profile.
  destruct (findOne _ db) as [[id0 u0]|] eqn:Hf; [|done].
  apply findOne_Some in Hf as [Hl He]. apply bool_decide_eq_true in He.
  destruct (taken _ id0 db); [done|]. cbn [fst snd].
  intros [= <- <-]. exists u0. done.
Qed.

(** X28: when a profile update that names a password succeeds, a login
    with the user's email and the new password succeeds from then on and a
    login with any other password, the old one included, is refused. *)
Theorem update_profile_changes_password omitUndefined now e username newpw file
    (db : gmap ObjectId User) id (u' : User) :
  users_unique db →
  (update_profile omitUndefined now e username (Some newpw) file db).1
    = JsonUser 200 "Profile updated successfully" id u' →
  let db' := (update_profile omitUndefined now e username (Some newpw) file db).2 in
  login e (Some newpw) db' = JsonLogin "Login successful" (without_password id u') ∧
  (∀ q, q ≠ Some newpw → login e q db' = InvalidLogin).
Proof.
  intros Hu Hok db'. subst db'.
  destruct (update_profile_ok _ _ _ _ _ _ _ _ _ Hok) as (u & Hl & He & Hu' & ->).
  assert (He' : user_email u' = e) by (by subst u').
  assert (Hp' : user_password u' = Some newpw) by (by subst u').
  assert (Hf : findOne (λ v, bool_decide (user_email v = e)) (<[id := u']> db)
                 = Some (id, u')).
  { rewrite <- He'. apply findOne_insert_email. intros j v Hj Hne Heq.
    apply Hne. apply (Hu j id v u Hj Hl). left. congruence. }
  unfold login. rewrite Hf, Hp'. split.
  - by rewrite decide_True.
  - intros [q|] Hq; [|done]. rewrite decide_False; [done|congruence].
Qed.

Lemma sample_users_unique : users_unique sample_users.
Proof.
  apply users_unique_insert.
  - apply users_unique_insert; [|intros j v Hj; by rewrite lookup_empty in Hj].
    intros i j u v Hi. by rewrite lookup_empty in Hi.
  - intros j v Hj Hne.
    apply lookup_insert_Some in Hj as [[_ <-]|[_ Hj]]; [by split|].
    by rewrite lookup_empty in Hj.
Qed.

Lemma update_profile_changes_password_witness :
  let db' := (update_profile true 9 "bob@e.com" (Some "bob") (Some "new") None
                sample_users).2 in
  login "bob@e.com" (Some "new") db'
    = JsonLogin "Login successful"
        (without_password 2%N
           (mkUser (Some "/uploads/7-b.png") (Some "bob") "bob@e.com" (Some "new"))) ∧
  (∀ q, q ≠ Some "new" → login "bob@e.com" q db' = InvalidLogin).
Proof.
  apply (update_profile_changes_password true 9 "bob@e.com" (Some "bob") "new"
           None sample_users 2%N
           (mkUser (Some "/uploads/7-b.png") (Some "bob") "bob@e.com" (Some "new"))
           sample_users_unique).
  vm_compute. reflexivity.
Defined.

(** X29: a profile update of an email no user has answers 404 and changes
    nothing; a refused update changes nothing; a successful one rewrites
    only the addressed user, keeps the email, stores the body's [username]
    and [password] when given, and replaces the photo only when a file was
    sent. *)
Theorem update_profile_frame omitUndefined now e username password file
    (db : gmap ObjectId User) :
  ((∀ j v, db !! j = Some v → user_email v ≠ e) →
     update_profile omitUndefined now e username password file db
       = (UserNotFound, db)) ∧
  (∀ st err,
     (update_profile omitUndefined now e username password file db).1
       = JsonUserError st err →
     (update_profile omitUndefined now e username password file db).2 = db) ∧
  (∀ id u',
     (update_profile omitUndefined now e username password file db).1
       = JsonUser 200 "Profile updated successfully" id u' →
     ∃ u, db !! id = Some u ∧ user_email u = e ∧ user_email u' = e
       ∧ (update_profile omitUndefined now e username password file db).2
           = <[id := u']> db
       ∧ user_photo u' = match file with
                         | Some _ => upload_path now file
                         | None => user_photo u
                         end
       ∧ (∀ s, username = Some s → user_username u' = Some s)
       ∧ (∀ s, password = Some s → user_password u' = Some s)).
Proof.
  split; [|split].
  - intros Hnone. unfold update_profile.
    rewrite (proj2 (findOne_None _ db)); [done|].
    intros id u Hl. apply bool_decide_eq_false. by apply (Hnone id u).
  - intros st err. unfold update_profile.
    destruct (findOne _ db) as [[id u]|]; [|done].
    by destruct (taken _ id db).
  - intros id u' Hok.
    destruct (update_profile_ok _ _ _ _ _ _ _ _ _ Hok) as (u & Hl & He & Hu' & Hdb).
    exists u. subst u'. simpl. repeat split; try done.
    + by destruct file.
    + by intros s ->.
    + by intros s ->.
Qed.

Lemma update_profile_frame_witness :
  update_profile false 9 "zed@e.com" None None (Some "z.png") sample_users
    = (UserNotFound, sample_users).
Proof.
  apply (proj1 (update_profile_frame false 9 "zed@e.com" None None
                  (Some "z.png") sample_users)).
  intros j v Hj. unfold sample_users in Hj.
  apply lookup_insert_Some in Hj as [[_ <-]|[_ Hj]]; [discriminate|].
  apply lookup_insert_Some in Hj as [[_ <-]|[_ Hj]]; [discriminate|].
  by rewrite lookup_empty in Hj.
Defined.
